(** * F1 API backend: a shallow embedding of [main.py]

    The service proxies the Ergast Formula 1 API and keeps two collections
    of favourites.  Python values are modelled by [pyval], the exceptions the
    handlers can meet by [exn], and a handler is a computation in the monad
    [M]: it reads the environment (the network and the clock), logs every
    outbound HTTP request it issues, and either returns a value or raises. *)

From stdpp Require Import base numbers list strings pretty gmap fin_maps.
From Stdlib Require Import QArith.

Local Open Scope string_scope.
Local Open Scope Z_scope.
Local Set Warnings "-register-all".

(** ** Python values *)

(** Python floats: the finite ones as rationals, plus the special values the
    JSON decoder also accepts. *)
Inductive pyfloat :=
| FNan
| FInf (negative : bool)
| FFin (q : Q).

(** [PObjectId] is the storage's identifier type ([bson.ObjectId]), given by
    its 24-digit hexadecimal form.  Keys of dictionaries are strings, as in
    every dictionary that comes from JSON or from the document store. *)
Inductive pyval :=
| PNone
| PBool (b : bool)
| PInt (n : Z)
| PFloat (f : pyfloat)
| PStr (s : string)
| PList (l : list pyval)
| PDict (d : gmap string pyval)
| PObjectId (hex : string).

(** The exceptions the code names or can meet; [PythonError] stands for an
    exception of any other class, given by the name of the class. *)
Inductive exn :=
| HTTPException (status_code : Z) (detail : string)
| RequestException
| ValueError
| AttributeError
| TypeError
| KeyError
| IndexError
| StorageError
| PythonError (class_name : string).

Inductive result (A : Type) :=
| Ok (a : A)
| Raise (e : exn).
Arguments Ok {A} a.
Arguments Raise {A} e.

(** ** The outside world *)

Record request := mkRequest {
  url : string;
  params : option (gmap string Z);
  timeout : Z
}.

(** What [r.json()] does on a response body: it parses, or fails with a
    decoding error that is a [RequestException] (requests 2.27 and later) or
    a plain [ValueError] (before), or fails with an exception of another
    class (a [RecursionError] on a body nested too deep, for one). *)
Inductive body :=
| Parsed (v : pyval)
| Undecodable (as_request_exception : bool)
| Unreadable (class_name : string).

Record response := mkResponse {
  status_code : Z;
  content : body
}.

(** [requests_get] answers with [None] when the transport fails (DNS,
    refused connection, timeout, TLS).  [get_documents] is the read
    operation that [main.py] imports from the [database] module; the
    handlers rely only on its returning the documents of a collection as a
    list of dictionaries, or raising. *)
Record env := mkEnv {
  requests_get : request → option response;
  utcnow_year : Z;
  get_documents : string → result (list (gmap string pyval))
}.

(** ** The monad of handlers *)

Definition M (A : Type) : Type := env → list request * result A.

Definition raise {A} (e : exn) : M A := λ _, ([], Raise e).
Definition lift {A} (r : result A) : M A := λ _, ([], r).

#[global] Instance M_ret : MRet M := λ A a _, ([], Ok a).

#[global] Instance M_bind : MBind M := λ A B k m w,
  match m w with
  | (tr, Ok a) => let '(tr', r) := k a w in ((tr ++ tr')%list, r)
  | (tr, Raise e) => (tr, Raise e)
  end.

(** [try: body except <class> as e: handler e]; exceptions of other classes
    pass through. *)
Definition try_except {A} (body : M A) (catches : exn → bool)
    (handler : exn → M A) : M A := λ w,
  match body w with
  | (tr, Raise e) =>
      if catches e then let '(tr', r) := handler e w in ((tr ++ tr')%list, r)
      else (tr, Raise e)
  | done => done
  end.

Definition requests_sent {A} (m : M A) (w : env) : list request := fst (m w).
Definition outcome {A} (m : M A) (w : env) : result A := snd (m w).

Definition is_RequestException (e : exn) : bool :=
  match e with RequestException => true | _ => false end.
Definition is_HTTPException (e : exn) : bool :=
  match e with HTTPException _ _ => true | _ => false end.

(** [requests.get(url, params=params, timeout=timeout)] *)
Definition http_get (u : string) (ps : option (gmap string Z)) (t : Z)
    : M response := λ w,
  let req := mkRequest u ps t in
  ([req], match requests_get w req with
          | Some r => Ok r
          | None => Raise RequestException
          end).

(** [r.json()] *)
Definition json (r : response) : result pyval :=
  match content r with
  | Parsed v => Ok v
  | Undecodable true => Raise RequestException
  | Undecodable false => Raise ValueError
  | Unreadable class_name => Raise (PythonError class_name)
  end.

(** ** The upstream client *)

Definition ERGAST_BASE : string := "https://ergast.com/api/f1".

Definition fetch_ergast (endpoint : string) (ps : option (gmap string Z))
    : M pyval :=
  let url := ERGAST_BASE +:+ "/" +:+ endpoint +:+ ".json" in
  try_except
    (r ← http_get url ps 15;
     if negb (status_code r =? 200)
     then raise (HTTPException 502 ("Upstream error " +:+ pretty (status_code r)))
     else lift (json r))
    is_RequestException
    (λ _, raise (HTTPException 503
                   "External data source unavailable: ergast.com")).

(** ** Python built-ins the handlers use *)

(** [v.get(key, default)]: only dictionaries have the method. *)
Definition py_get (v : pyval) (key : string) (dflt : pyval) : result pyval :=
  match v with
  | PDict d => Ok (default dflt (d !! key))
  | _ => Raise AttributeError
  end.

(** A [string] holds the UTF-8 encoding of a Python string.  A character
    is a byte that is not a continuation byte ([10xxxxxx]) together with the
    continuation bytes that follow it. *)
Definition is_continuation (a : Ascii.ascii) : bool :=
  match a with
  | Ascii.Ascii _ _ _ _ _ _ b6 b7 => b7 && negb b6
  end.

(** [len(s)]: the number of characters of [s]. *)
Fixpoint characters (s : string) : nat :=
  match s with
  | "" => 0%nat
  | String a rest =>
      ((if is_continuation a then 0 else 1) + characters rest)%nat
  end.

(** The continuation bytes at the head of [s]. *)
Fixpoint continuation_bytes (s : string) : string :=
  match s with
  | "" => ""
  | String a rest =>
      if is_continuation a then String a (continuation_bytes rest) else ""
  end.

(** [s[:n]]: the first [n] characters of [s], all of [s] when it has
    fewer. *)
Fixpoint first_characters (n : nat) (s : string) : string :=
  match s with
  | "" => ""
  | String a rest =>
      if is_continuation a then String a (first_characters n rest)
      else match n with
           | O => ""
           | S n' => String a (first_characters n' rest)
           end
  end.

(** [len(v)] *)
Definition py_len (v : pyval) : result Z :=
  match v with
  | PStr s => Ok (Z.of_nat (characters s))
  | PList l => Ok (Z.of_nat (length l))
  | PDict d => Ok (Z.of_nat (size d))
  | _ => Raise TypeError
  end.

(** Truth value of [v], as tested by [if v]. *)
Definition py_truthy (v : pyval) : bool :=
  match v with
  | PNone => false
  | PBool b => b
  | PInt n => negb (n =? 0)
  | PFloat (FFin q) => negb (Qeq_bool q 0)
  | PFloat _ => true
  | PStr s => negb (String.length s =? 0)%nat
  | PList l => negb (length l =? 0)%nat
  | PDict d => negb (size d =? 0)%nat
  | PObjectId _ => true
  end.

(** [v[0]]: a dictionary with string keys has no key [0]. *)
Definition py_first (v : pyval) : result pyval :=
  match v with
  | PList (x :: _) => Ok x
  | PList [] => Raise IndexError
  | PStr (String a rest) => Ok (PStr (String a (continuation_bytes rest)))
  | PStr "" => Raise IndexError
  | PDict _ => Raise KeyError
  | _ => Raise TypeError
  end.

(** [v[key]] for a string [key]. *)
Definition py_item (v : pyval) (key : string) : result pyval :=
  match v with
  | PDict d => match d !! key with Some x => Ok x | None => Raise KeyError end
  | _ => Raise TypeError
  end.

(** [range(a, b)] *)
Definition py_range (a b : Z) : list Z := seqZ a (b - a).

(** Bound of a slice brought into [0 .. len]: a negative bound counts from
    the end of the list. *)
Definition slice_bound (len i : Z) : Z :=
  if i <? 0 then Z.max 0 (i + len) else Z.min i len.

(** [l[start:stop]] *)
Definition py_slice {A} (l : list A) (start stop : Z) : list A :=
  let len := Z.of_nat (length l) in
  let lo := slice_bound len start in
  let hi := slice_bound len stop in
  take (Z.to_nat (hi - lo)) (drop (Z.to_nat lo) l).

(** ** Offline fallback for seasons *)

Definition utcnow_dot_year : M Z := λ w, ([], Ok (utcnow_year w)).

Definition season_record (y : Z) : pyval :=
  PDict {[ "season" := PStr (pretty y);
           "url" := PStr ("https://en.wikipedia.org/wiki/" +:+ pretty y
                          +:+ "_Formula_One_World_Championship") ]}.

(** The loop that fills [seasons_list]. *)
Definition seasons_list (current_year : Z) : list pyval :=
  let start_year := 1950 in
  foldl (λ acc y, (acc ++ [season_record y])%list) [] (py_range start_year (current_year + 1)).

Definition offline_seasons (limit offset : option Z) : M pyval :=
  let limit := default 80 limit in
  let offset := default 0 offset in
  current_year ← utcnow_dot_year;
  let paged := py_slice (seasons_list current_year) offset (offset + limit) in
  mret (PDict {[ "count" := PInt (Z.of_nat (length paged));
                "items" := PList paged;
                "offline" := PBool true ]}).

(** ** Data endpoints *)

(** [except HTTPException as e: if e.status_code == 503: <fallback>; raise] *)
Definition unless_unavailable {A} (body fallback : M A) : M A :=
  try_except body is_HTTPException
    (λ e, match e with
          | HTTPException sc _ => if sc =? 503 then fallback else raise e
          | _ => raise e
          end).

Definition list_seasons (limit offset : option Z) : M pyval :=
  let limit := default 80 limit in
  let offset := default 0 offset in
  unless_unavailable
    (data ← fetch_ergast "seasons"
              (Some {[ "limit" := limit; "offset" := offset ]});
     mrdata ← lift (py_get data "MRData" (PDict ∅));
     table ← lift (py_get mrdata "SeasonTable" (PDict ∅));
     seasons ← lift (py_get table "Seasons" (PList []));
     n ← lift (py_len seasons);
     mret (PDict {[ "count" := PInt n; "items" := seasons ]}))
    (offline_seasons (Some limit) (Some offset)).

Definition list_drivers (season : Z) : M pyval :=
  unless_unavailable
    (data ← fetch_ergast (pretty season +:+ "/drivers") None;
     mrdata ← lift (py_get data "MRData" (PDict ∅));
     table ← lift (py_get mrdata "DriverTable" (PDict ∅));
     drivers ← lift (py_get table "Drivers" (PList []));
     n ← lift (py_len drivers);
     mret (PDict {[ "season" := PInt season; "count" := PInt n;
                   "items" := drivers ]}))
    (mret (PDict {[ "season" := PInt season; "count" := PInt 0;
                   "items" := PList []; "offline" := PBool true ]})).

Definition list_constructors (season : Z) : M pyval :=
  unless_unavailable
    (data ← fetch_ergast (pretty season +:+ "/constructors") None;
     mrdata ← lift (py_get data "MRData" (PDict ∅));
     table ← lift (py_get mrdata "ConstructorTable" (PDict ∅));
     constructors ← lift (py_get table "Constructors" (PList []));
     n ← lift (py_len constructors);
     mret (PDict {[ "season" := PInt season; "count" := PInt n;
                   "items" := constructors ]}))
    (mret (PDict {[ "season" := PInt season; "count" := PInt 0;
                   "items" := PList []; "offline" := PBool true ]})).

Definition list_races (season : Z) : M pyval :=
  unless_unavailable
    (data ← fetch_ergast (pretty season +:+ ".json") None;
     mrdata ← lift (py_get data "MRData" (PDict ∅));
     table ← lift (py_get mrdata "RaceTable" (PDict ∅));
     races ← lift (py_get table "Races" (PList []));
     n ← lift (py_len races);
     mret (PDict {[ "season" := PInt season; "count" := PInt n;
                   "items" := races ]}))
    (mret (PDict {[ "season" := PInt season; "count" := PInt 0;
                   "items" := PList []; "offline" := PBool true ]})).

Definition race_results (season round : Z) : M pyval :=
  unless_unavailable
    (data ← fetch_ergast (pretty season +:+ "/" +:+ pretty round +:+ "/results")
              None;
     mrdata ← lift (py_get data "MRData" (PDict ∅));
     table ← lift (py_get mrdata "RaceTable" (PDict ∅));
     races ← lift (py_get table "Races" (PList []));
     results ← (if py_truthy races
                then (race ← lift (py_first races); lift (py_item race "Results"))
                else mret (PList []));
     n ← lift (py_len results);
     mret (PDict {[ "season" := PInt season; "round" := PInt round;
                   "count" := PInt n; "items" := results ]}))
    (mret (PDict {[ "season" := PInt season; "round" := PInt round;
                   "count" := PInt 0; "items" := PList [];
                   "offline" := PBool true ]})).

(** The routes of the data endpoints, with the arguments the framework binds
    from the path and the query string ([None]: parameter not supplied). *)
Inductive endpoint :=
| Seasons (limit offset : option Z)
| Drivers (season : Z)
| Constructors (season : Z)
| Races (season : Z)
| Results (season round : Z).

Definition handle (ep : endpoint) : M pyval :=
  match ep with
  | Seasons limit offset => list_seasons limit offset
  | Drivers season => list_drivers season
  | Constructors season => list_constructors season
  | Races season => list_races season
  | Results season round => race_results season round
  end.

(** The values the framework can send as JSON: no [nan] or infinity (its
    encoder refuses them) and no storage identifier anywhere inside. *)
Fixpoint json_compliant (v : pyval) : bool :=
  match v with
  | PFloat FNan | PFloat (FInf _) | PObjectId _ => false
  | PList l => forallb json_compliant l
  | PDict d => map_fold (λ _ x acc, json_compliant x && acc) true d
  | _ => true
  end.

(** How the framework answers the client: the status of the reply and its
    JSON body.  A returned value is sent with status 200 when it can be
    encoded; an [HTTPException] becomes its status with a [detail] body; a
    value that cannot be encoded and any other exception give a bare 500. *)
Definition http_reply (r : result pyval) : Z * pyval :=
  match r with
  | Ok v =>
      if json_compliant v then (200, v)
      else (500, PStr "Internal Server Error")
  | Raise (HTTPException sc d) => (sc, PDict {[ "detail" := PStr d ]})
  | Raise _ => (500, PStr "Internal Server Error")
  end.

(** ** Favourites *)

(** [str(v)].  For floats and containers the text is the one [repr] gives,
    which is left to the parameter [repr]. *)
Definition py_str (repr : pyval → string) (v : pyval) : string :=
  match v with
  | PNone => "None"
  | PBool true => "True"
  | PBool false => "False"
  | PInt n => pretty n
  | PStr s => s
  | PObjectId hex => hex
  | PFloat _ | PList _ | PDict _ => repr v
  end.

Definition call_get_documents (collection_name : string)
    : M (list (gmap string pyval)) :=
  λ w, ([], get_documents w collection_name).

(** The body of the loop over [docs]:
    [if "_id" in d: d["_id"] = str(d["_id"])] *)
Definition stringify_id (repr : pyval → string) (d : gmap string pyval)
    : gmap string pyval :=
  match d !! "_id" with
  | Some v => <["_id" := PStr (py_str repr v)]> d
  | None => d
  end.

Definition get_favorite_drivers (repr : pyval → string) : M pyval :=
  docs ← call_get_documents "favoritedriver";
  let docs := stringify_id repr <$> docs in
  mret (PDict {[ "count" := PInt (Z.of_nat (length docs));
                 "items" := PList (PDict <$> docs) ]}).

Definition get_favorite_constructors (repr : pyval → string) : M pyval :=
  docs ← call_get_documents "favoriteconstructor";
  let docs := stringify_id repr <$> docs in
  mret (PDict {[ "count" := PInt (Z.of_nat (length docs));
                 "items" := PList (PDict <$> docs) ]}).

(** ** Root and diagnostics *)

Definition read_root : pyval := PDict {[ "message" := PStr "F1 backend running" ]}.

(** What an attribute access or a method call on the storage handle does:
    it gives a value, or raises an exception [e] whose [str(e)] is
    [message]. *)
Inductive attempt (A : Type) :=
| Gives (a : A)
| Throws (message : string).
Arguments Gives {A} a.
Arguments Throws {A} message.

(** The storage handle [db] as [test_database] uses it: the attribute
    [name] ([None] when the handle has no such attribute) and the method
    [list_collection_names]. *)
Record database := mkDatabase {
  name : option (attempt pyval);
  list_collection_names : attempt (list string)
}.

(** The process around the diagnostics: the global [db], which is [None]
    when no connection was set up, and the environment variables. *)
Record process := mkProcess {
  db : option database;
  getenv : string → option string
}.

(** Truth value of [os.getenv(key)]: an unset or empty variable is false. *)
Definition getenv_truthy (p : process) (key : string) : bool :=
  match getenv p key with
  | Some value => negb (String.length value =? 0)%nat
  | None => false
  end.

(** [test_database]; [response] is the dictionary the function builds and
    mutates, threaded through the two [try] blocks. *)
Definition test_database (p : process) : gmap string pyval :=
  let response : gmap string pyval :=
    {[ "backend" := PStr "✅ Running";
       "database" := PStr "❌ Not Available";
       "database_url" := PNone;
       "database_name" := PNone;
       "connection_status" := PStr "Not Connected";
       "collections" := PList [] ]} in
  let response :=
    match db p with
    | Some handle =>
        let response := <["database" := PStr "✅ Available"]> response in
        let response := <["database_url" := PStr "✅ Configured"]> response in
        match name handle with
        | Some (Throws message) =>
            <["database" :=
                PStr ("❌ Error: " +:+ first_characters 50 message)]> response
        | shown =>
            let response :=
              <["database_name" :=
                  match shown with
                  | Some (Gives v) => v
                  | _ => PStr "✅ Connected"
                  end]> response in
            let response := <["connection_status" := PStr "Connected"]> response in
            match list_collection_names handle with
            | Gives collections =>
                let response :=
                  <["collections" := PList (PStr <$> py_slice collections 0 10)]>
                    response in
                <["database" := PStr "✅ Connected & Working"]> response
            | Throws message =>
                <["database" :=
                    PStr ("⚠️  Connected but Error: "
                          +:+ first_characters 50 message)]> response
            end
        end
    | None => <["database" := PStr "⚠️  Available but not initialized"]> response
    end in
  let response :=
    <["database_url" :=
        PStr (if getenv_truthy p "DATABASE_URL" then "✅ Set" else "❌ Not Set")]>
      response in
  let response :=
    <["database_name" :=
        PStr (if getenv_truthy p "DATABASE_NAME" then "✅ Set" else "❌ Not Set")]>
      response in
  response.

(** ** Vocabulary of the properties *)

(** The request the upstream client is expected to issue for an endpoint path. *)
Definition ergast_request (endpoint : string) (ps : option (gmap string Z))
    : request :=
  mkRequest (ERGAST_BASE +:+ "/" +:+ endpoint +:+ ".json") ps 15.

(** The call of the upstream client that each data endpoint makes. *)
Definition upstream_call (ep : endpoint) : M pyval :=
  match ep with
  | Seasons limit offset =>
      fetch_ergast "seasons"
        (Some {[ "limit" := default 80 limit; "offset" := default 0 offset ]})
  | Drivers season => fetch_ergast (pretty season +:+ "/drivers") None
  | Constructors season => fetch_ergast (pretty season +:+ "/constructors") None
  | Races season => fetch_ergast (pretty season +:+ ".json") None
  | Results season round =>
      fetch_ergast (pretty season +:+ "/" +:+ pretty round +:+ "/results") None
  end.

(** The upstream answers the request of endpoint [ep] with [o]. *)
Definition upstream_answers (w : env) (ep : endpoint) (o : option response)
    : Prop :=
  Forall (λ req, requests_get w req = o) (requests_sent (handle ep) w).

Definition unavailable (r : result pyval) : Prop :=
  ∃ detail, r = Raise (HTTPException 503 detail).

(** Sample environments: an unreachable upstream, and an upstream that
    answers every request with the same status and body. *)
Definition upstream_down (year : Z) : env :=
  mkEnv (λ _, None) year (λ _, Ok []).
Definition upstream_replies (status : Z) (b : body) (year : Z) : env :=
  mkEnv (λ _, Some (mkResponse status b)) year (λ _, Ok []).

(** Number of years from 1950 through [current_year], both included. *)
Definition total_years (current_year : Z) : Z := Z.max 0 (current_year - 1950 + 1).

(** The record's [season] field is the string form of [year]. *)
Definition has_season (year : Z) (record : pyval) : bool :=
  match py_item record "season" with
  | Ok (PStr s) => String.eqb s (pretty year)
  | _ => false
  end.

Definition wikipedia_url (year : Z) : string :=
  "https://en.wikipedia.org/wiki/" +:+ pretty year
  +:+ "_Formula_One_World_Championship".

(** [s.endswith(suffix)] *)
Fixpoint ends_with (suffix s : string) : bool :=
  String.eqb suffix s ||
  match s with
  | "" => false
  | String _ s' => ends_with suffix s'
  end.

(** The value is, or holds somewhere inside, a raw storage identifier. *)
Fixpoint has_object_id (v : pyval) : bool :=
  match v with
  | PObjectId _ => true
  | PList l => existsb has_object_id l
  | PDict d => map_fold (λ _ x acc, has_object_id x || acc) false d
  | _ => false
  end.

(** The keys of the table wrapper and of the list in the envelope of each
    endpoint. *)
Definition table_key (ep : endpoint) : string :=
  match ep with
  | Seasons _ _ => "SeasonTable"
  | Drivers _ => "DriverTable"
  | Constructors _ => "ConstructorTable"
  | Races _ | Results _ _ => "RaceTable"
  end.

Definition list_key (ep : endpoint) : string :=
  match ep with
  | Seasons _ _ => "Seasons"
  | Drivers _ => "Drivers"
  | Constructors _ => "Constructors"
  | Races _ | Results _ _ => "Races"
  end.

(** A level of the path [MRData] / [table] / [lst] is missing from [data]:
    [data] is an object and either has no [MRData], or [MRData] is an
    object without [table], or [table] is an object without [lst]. *)
Definition level_missing (data : pyval) (table lst : string) : bool :=
  match data with
  | PDict d =>
      match d !! "MRData" with
      | None => true
      | Some (PDict mrdata) =>
          match mrdata !! table with
          | None => true
          | Some (PDict t) =>
              match t !! lst with None => true | Some _ => false end
          | Some _ => false
          end
      | Some _ => false
      end
  | _ => false
  end.

(** The response of an endpoint with no items. *)
Definition empty_response (ep : endpoint) : pyval :=
  match ep with
  | Seasons _ _ => PDict {[ "count" := PInt 0; "items" := PList [] ]}
  | Drivers season | Constructors season | Races season =>
      PDict {[ "season" := PInt season; "count" := PInt 0;
               "items" := PList [] ]}
  | Results season round =>
      PDict {[ "season" := PInt season; "round" := PInt round;
               "count" := PInt 0; "items" := PList [] ]}
  end.

(** An upstream answer whose only race has no [Results] field. *)
Definition race_without_results : pyval :=
  PDict {[ "MRData" := PDict {[ "RaceTable" :=
    PDict {[ "Races" := PList [PDict {[ "round" := PStr "1" ]}] ]} ]} ]}.

(** A store whose collections all hold the documents [docs]. *)
Definition store_of (docs : list (gmap string pyval)) : env :=
  mkEnv (λ _, None) 2026 (λ _, Ok docs).

(** What the favourites listings must return for the stored [docs]: as
    many records, in the same order, each the stored document with its
    [_id], when it has one, replaced by the string form of that [_id]. *)
Definition ids_rendered (repr : pyval → string)
    (docs : list (gmap string pyval)) (r : result pyval) : Prop :=
  ∃ items : list (gmap string pyval),
    r = Ok (PDict {[ "count" := PInt (Z.of_nat (length items));
                     "items" := PList (PDict <$> items) ]}) ∧
    length items = length docs ∧
    ∀ (i : nat) d, docs !! i = Some d →
      ∃ record, items !! i = Some record ∧
        (∀ k, k ≠ "_id" → record !! k = d !! k) ∧
        record !! "_id" = (λ v, PStr (py_str repr v)) <$> d !! "_id".

(** No record of the response has an [_id] of the raw identifier type. *)
Definition no_raw_id (r : result pyval) : Prop :=
  ∀ d items record v,
    r = Ok (PDict d) → d !! "items" = Some (PList items) →
    PDict record ∈ items → record !! "_id" = Some v →
    ∃ s, v = PStr s.

(** No record of the response holds a raw identifier anywhere. *)
Definition no_object_id (r : result pyval) : Prop :=
  ∀ d items record,
    r = Ok (PDict d) → d !! "items" = Some (PList items) →
    record ∈ items → has_object_id record = false.

(** The three together, the last for stored documents in which no field
    other than [_id] holds a raw identifier. *)
Definition listing_with_string_ids (repr : pyval → string)
    (docs : list (gmap string pyval)) (r : result pyval) : Prop :=
  ids_rendered repr docs r ∧
  no_raw_id r ∧
  ((∀ d k v, d ∈ docs → k ≠ "_id" → d !! k = Some v →
             has_object_id v = false) →
   no_object_id r).

(** The response of an endpoint for the list [items] of length [n]. *)
Definition envelope_response (ep : endpoint) (n : Z) (items : pyval) : pyval :=
  match ep with
  | Seasons _ _ => PDict {[ "count" := PInt n; "items" := items ]}
  | Drivers season | Constructors season | Races season =>
      PDict {[ "season" := PInt season; "count" := PInt n; "items" := items ]}
  | Results season round =>
      PDict {[ "season" := PInt season; "round" := PInt round;
               "count" := PInt n; "items" := items ]}
  end.

Definition result_bind {A B} (r : result A) (k : A → result B) : result B :=
  match r with
  | Ok a => k a
  | Raise e => Raise e
  end.

(** What an endpoint makes of the value [data] that the upstream client
    returned, as one function of the endpoint. *)
Definition reshape (ep : endpoint) (data : pyval) : result pyval :=
  result_bind (py_get data "MRData" (PDict ∅)) (λ mrdata,
  result_bind (py_get mrdata (table_key ep) (PDict ∅)) (λ table,
  result_bind (py_get table (list_key ep) (PList [])) (λ found,
  result_bind
    match ep with
    | Results _ _ =>
        if py_truthy found
        then result_bind (py_first found) (λ race, py_item race "Results")
        else Ok (PList [])
    | _ => Ok found
    end (λ items,
  result_bind (py_len items) (λ n,
  Ok (envelope_response ep n items)))))).

(** The [items] of a response, [[]] when there is none. *)
Definition page_items (r : result pyval) : list pyval :=
  match r with
  | Ok (PDict d) =>
      match d !! "items" with
      | Some (PList items) => items
      | _ => []
      end
  | _ => []
  end.

(** The values [len] is not defined on. *)
Definition unsized (v : pyval) : bool :=
  match v with
  | PNone | PBool _ | PInt _ | PFloat _ | PObjectId _ => true
  | PStr _ | PList _ | PDict _ => false
  end.

(** A wrapper of the envelope is there but is not an object: the parsed
    value itself, its [MRData], or the [table] inside [MRData]. *)
Definition wrapper_not_object (data : pyval) (table : string) : bool :=
  match data with
  | PDict d =>
      match d !! "MRData" with
      | None => false
      | Some (PDict mrdata) =>
          match mrdata !! table with
          | None | Some (PDict _) => false
          | Some _ => true
          end
      | Some _ => true
      end
  | _ => true
  end.

(** The path each data endpoint hands to the upstream client. *)
Definition endpoint_path (ep : endpoint) : string :=
  match ep with
  | Seasons _ _ => "seasons"
  | Drivers season => pretty season +:+ "/drivers"
  | Constructors season => pretty season +:+ "/constructors"
  | Races season => pretty season +:+ ".json"
  | Results season round => pretty season +:+ "/" +:+ pretty round +:+ "/results"
  end.

(** The query parameters each data endpoint hands to the upstream client. *)
Definition params_of (ep : endpoint) : option (gmap string Z) :=
  match ep with
  | Seasons limit offset =>
      Some {[ "limit" := default 80 limit; "offset" := default 0 offset ]}
  | _ => None
  end.

(** * Properties *)

(** ** Running computations *)

Section Running.
Context {A B : Type}.

Lemma outcome_ret (a : A) w : outcome (mret a) w = Ok a.
Proof. reflexivity. Qed.

Lemma outcome_raise (e : exn) w : outcome (raise e : M A) w = Raise e.
Proof. reflexivity. Qed.

Lemma outcome_lift (r : result A) w : outcome (lift r) w = r.
Proof. reflexivity. Qed.

Lemma outcome_bind (m : M A) (k : A → M B) w :
  outcome (m ≫= k) w =
  match outcome m w with
  | Ok a => outcome (k a) w
  | Raise e => Raise e
  end.
Proof.
  unfold outcome, mbind, M_bind.
  destruct (m w) as [tr [a|e]]; simpl; [|reflexivity].
  destruct (k a w); reflexivity.
Qed.

Lemma sent_bind (m : M A) (k : A → M B) w :
  requests_sent (m ≫= k) w =
  match outcome m w with
  | Ok a => (requests_sent m w ++ requests_sent (k a) w)%list
  | Raise e => requests_sent m w
  end.
Proof.
  unfold requests_sent, outcome, mbind, M_bind.
  destruct (m w) as [tr [a|e]]; simpl; [|reflexivity].
  destruct (k a w); reflexivity.
Qed.

Lemma outcome_try (body : M A) catches handler w :
  outcome (try_except body catches handler) w =
  match outcome body w with
  | Raise e => if catches e then outcome (handler e) w else Raise e
  | Ok a => Ok a
  end.
Proof.
  unfold outcome, try_except.
  destruct (body w) as [tr [a|e]]; simpl; [reflexivity|].
  destruct (catches e); [|reflexivity].
  destruct (handler e w); reflexivity.
Qed.

Lemma sent_try (body : M A) catches handler w :
  requests_sent (try_except body catches handler) w =
  match outcome body w with
  | Raise e => if catches e
               then (requests_sent body w ++ requests_sent (handler e) w)%list
               else requests_sent body w
  | Ok a => requests_sent body w
  end.
Proof.
  unfold requests_sent, outcome, try_except.
  destruct (body w) as [tr [a|e]]; simpl; [reflexivity|].
  destruct (catches e); [|reflexivity].
  destruct (handler e w); reflexivity.
Qed.

Lemma outcome_unless (body fallback : M A) w :
  outcome (unless_unavailable body fallback) w =
  match outcome body w with
  | Raise (HTTPException sc d) =>
      if sc =? 503 then outcome fallback w else Raise (HTTPException sc d)
  | r => r
  end.
Proof.
  unfold unless_unavailable. rewrite outcome_try.
  destruct (outcome body w) as [a|[]]; simpl; try reflexivity.
  destruct (_ =? 503); reflexivity.
Qed.

Lemma sent_unless (body fallback : M A) w :
  requests_sent fallback w = [] →
  requests_sent (unless_unavailable body fallback) w = requests_sent body w.
Proof.
  intros Hfb. unfold unless_unavailable. rewrite sent_try.
  destruct (outcome body w) as [a|[]]; simpl; try reflexivity.
  destruct (_ =? 503).
  - rewrite Hfb. apply app_nil_r.
  - apply app_nil_r.
Qed.
End Running.

(** ** The upstream client *)

Lemma fetch_ergast_sent endpoint ps w :
  requests_sent (fetch_ergast endpoint ps) w = [ergast_request endpoint ps].
Proof.
  unfold fetch_ergast. rewrite sent_try, outcome_bind, sent_bind.
  unfold http_get, outcome, requests_sent; simpl.
  destruct (requests_get w _) as [r|]; simpl; [|reflexivity].
  destruct (status_code r =? 200); simpl; [|reflexivity].
  destruct (json r) as [v|e]; simpl; [reflexivity|].
  destruct (is_RequestException e); reflexivity.
Qed.

(** The three outcomes of one call of the client. *)
Lemma fetch_ergast_outcome endpoint ps w :
  outcome (fetch_ergast endpoint ps) w =
  match requests_get w (ergast_request endpoint ps) with
  | None =>
      Raise (HTTPException 503 "External data source unavailable: ergast.com")
  | Some r =>
      if status_code r =? 200 then
        match content r with
        | Parsed v => Ok v
        | Undecodable true =>
            Raise (HTTPException 503
                     "External data source unavailable: ergast.com")
        | Undecodable false => Raise ValueError
        | Unreadable class_name => Raise (PythonError class_name)
        end
      else Raise (HTTPException 502
                    ("Upstream error " +:+ pretty (status_code r)))
  end.
Proof.
  unfold fetch_ergast. rewrite outcome_try, outcome_bind.
  unfold http_get, outcome, ergast_request; simpl.
  destruct (requests_get w _) as [r|]; simpl; [|reflexivity].
  destruct (status_code r =? 200); simpl; [|reflexivity].
  unfold json. destruct (content r) as [v|[]|class_name]; reflexivity.
Qed.

(** ** Data endpoints: one upstream call each *)

Ltac run :=
  repeat (rewrite ?outcome_unless, ?outcome_bind, ?outcome_lift, ?outcome_ret,
            ?outcome_raise; cbn beta iota).

Lemma offline_seasons_sent limit offset w :
  requests_sent (offline_seasons limit offset) w = [].
Proof. reflexivity. Qed.

Lemma sent_lift_bind {A B} (r : result A) (k : A → M B) w :
  requests_sent (lift r ≫= k) w =
  match r with Ok a => requests_sent (k a) w | Raise _ => [] end.
Proof. rewrite sent_bind, outcome_lift. destruct r; reflexivity. Qed.

Ltac quiet :=
  repeat first
    [ reflexivity
    | rewrite sent_lift_bind
    | match goal with
      | |- context [match ?r with Ok _ => _ | Raise _ => _ end] => destruct r
      end ].

Lemma handle_sent ep w :
  requests_sent (handle ep) w = requests_sent (upstream_call ep) w.
Proof.
  destruct ep; simpl;
    [unfold list_seasons|unfold list_drivers|unfold list_constructors
    |unfold list_races|unfold race_results];
    (rewrite sent_unless by reflexivity);
    rewrite sent_bind, fetch_ergast_sent;
    destruct (outcome (fetch_ergast _ _) w) as [data|e]; try reflexivity.
  all: simpl; f_equal; quiet.
  rewrite sent_bind. destruct (py_truthy _).
  - rewrite outcome_bind, outcome_lift, sent_lift_bind.
    destruct (py_first _) as [race|]; [|reflexivity].
    unfold lift at 1 2; simpl. unfold outcome at 1; simpl.
    destruct (py_item race _); [|reflexivity]. simpl. quiet.
  - simpl. quiet.
Qed.

Lemma upstream_call_fetch ep :
  ∃ endpoint ps, upstream_call ep = fetch_ergast endpoint ps.
Proof. destruct ep; simpl; eauto. Qed.

Lemma upstream_answers_outcome w ep o :
  upstream_answers w ep o →
  ∃ endpoint ps, upstream_call ep = fetch_ergast endpoint ps ∧
                 requests_get w (ergast_request endpoint ps) = o.
Proof.
  unfold upstream_answers. rewrite handle_sent.
  destruct (upstream_call_fetch ep) as (endpoint & ps & ->).
  rewrite fetch_ergast_sent, Forall_singleton. eauto.
Qed.

(** An error of the upstream client other than 503 leaves every handler
    unchanged, and so does any exception that is not an [HTTPException]. *)
Lemma handle_propagates ep w e :
  outcome (upstream_call ep) w = Raise e →
  (∀ d, e ≠ HTTPException 503 d) →
  outcome (handle ep) w = Raise e.
Proof.
  intros Hup Hne.
  destruct ep; simpl in *;
    [unfold list_seasons|unfold list_drivers|unfold list_constructors
    |unfold list_races|unfold race_results];
    rewrite outcome_unless, outcome_bind, Hup;
    destruct e as [sc d| | | | | | | |class_name]; try reflexivity;
    destruct (sc =? 503) eqn:Hsc; try reflexivity;
    apply Z.eqb_eq in Hsc; subst sc; destruct (Hne d); reflexivity.
Qed.

(** [C5] Whatever the endpoint, an upstream answer whose HTTP status is not
    200 makes the upstream client raise the 502 error whose detail embeds
    that status; the handler raises this same error (no offline fallback
    takes its place) and the client is answered with status 502 and that
    detail. *)
Theorem upstream_status_surfaces_as_502 ep w resp :
  upstream_answers w ep (Some resp) →
  status_code resp ≠ 200 →
  outcome (upstream_call ep) w =
    Raise (HTTPException 502 ("Upstream error " +:+ pretty (status_code resp))) ∧
  outcome (handle ep) w = outcome (upstream_call ep) w ∧
  http_reply (outcome (handle ep) w) =
    (502, PDict {[ "detail" :=
                     PStr ("Upstream error " +:+ pretty (status_code resp)) ]}).
Proof.
  intros Hans Hst.
  destruct (upstream_answers_outcome _ _ _ Hans) as (endpoint & ps & Hcall & Hget).
  assert (outcome (upstream_call ep) w =
          Raise (HTTPException 502
                   ("Upstream error " +:+ pretty (status_code resp)))) as Hup.
  { rewrite Hcall, fetch_ergast_outcome, Hget.
    destruct (status_code resp =? 200) eqn:E; [|reflexivity].
    apply Z.eqb_eq in E. contradiction. }
  assert (outcome (handle ep) w = outcome (upstream_call ep) w) as Hh.
  { rewrite Hup. apply handle_propagates; [exact Hup|]. intros d; discriminate. }
  split; [exact Hup|]. split; [exact Hh|].
  rewrite Hh, Hup. reflexivity.
Qed.

Lemma upstream_status_surfaces_as_502_witness :
  http_reply (outcome (handle (Races 2021)) (upstream_replies 404 (Parsed PNone) 2026))
  = (502, PDict {[ "detail" := PStr "Upstream error 404" ]}).
Proof.
  refine (proj2 (proj2 (upstream_status_surfaces_as_502 (Races 2021)
            (upstream_replies 404 (Parsed PNone) 2026)
            (mkResponse 404 (Parsed PNone)) _ _))).
  - repeat constructor.
  - simpl. lia.
Defined.

(** ** Offline fallbacks *)

Lemma list_seasons_unavailable limit offset w :
  unavailable (outcome (upstream_call (Seasons limit offset)) w) →
  outcome (list_seasons limit offset) w =
    outcome (offline_seasons (Some (default 80 limit)) (Some (default 0 offset))) w.
Proof.
  intros [detail Hup]. simpl in Hup.
  unfold list_seasons. rewrite outcome_unless, outcome_bind, Hup. reflexivity.
Qed.

(** [C2] When the upstream client raises the 503 error for the seasons
    request, [list_seasons] returns what [offline_seasons] returns for the
    same [limit] and [offset], and that response carries [offline: true]. *)
Theorem seasons_unavailable_uses_generator limit offset w :
  unavailable (outcome (upstream_call (Seasons (Some limit) (Some offset))) w) →
  outcome (list_seasons (Some limit) (Some offset)) w =
    outcome (offline_seasons (Some limit) (Some offset)) w ∧
  ∃ d, outcome (list_seasons (Some limit) (Some offset)) w = Ok (PDict d) ∧
       d !! "offline" = Some (PBool true).
Proof.
  intros Hup. apply list_seasons_unavailable in Hup. simpl default in Hup.
  split; [exact Hup|]. rewrite Hup.
  eexists. split; reflexivity.
Qed.

Lemma seasons_unavailable_uses_generator_witness :
  outcome (list_seasons (Some 2) (Some 70)) (upstream_down 2026) =
  outcome (offline_seasons (Some 2) (Some 70)) (upstream_down 2026).
Proof.
  refine (proj1 (seasons_unavailable_uses_generator 2 70 (upstream_down 2026) _)).
  eexists. reflexivity.
Defined.

(** [C6] When the upstream client raises the 503 error, the drivers,
    constructors and races endpoints return exactly
    [{season, count: 0, items: [], offline: true}], and the results endpoint
    the same with its [round]. *)
Theorem unavailable_gives_empty_offline season round w :
  (unavailable (outcome (upstream_call (Drivers season)) w) →
   outcome (list_drivers season) w =
     Ok (PDict {[ "season" := PInt season; "count" := PInt 0;
                  "items" := PList []; "offline" := PBool true ]})) ∧
  (unavailable (outcome (upstream_call (Constructors season)) w) →
   outcome (list_constructors season) w =
     Ok (PDict {[ "season" := PInt season; "count" := PInt 0;
                  "items" := PList []; "offline" := PBool true ]})) ∧
  (unavailable (outcome (upstream_call (Races season)) w) →
   outcome (list_races season) w =
     Ok (PDict {[ "season" := PInt season; "count" := PInt 0;
                  "items" := PList []; "offline" := PBool true ]})) ∧
  (unavailable (outcome (upstream_call (Results season round)) w) →
   outcome (race_results season round) w =
     Ok (PDict {[ "season" := PInt season; "round" := PInt round;
                  "count" := PInt 0; "items" := PList [];
                  "offline" := PBool true ]})).
Proof.
  repeat split; intros [detail Hup]; simpl in Hup;
    [unfold list_drivers|unfold list_constructors|unfold list_races
    |unfold race_results];
    rewrite outcome_unless, outcome_bind, Hup; reflexivity.
Qed.

Lemma unavailable_gives_empty_offline_witness :
  outcome (list_drivers 2021) (upstream_down 2026) =
    Ok (PDict {[ "season" := PInt 2021; "count" := PInt 0;
                 "items" := PList []; "offline" := PBool true ]}) ∧
  outcome (race_results 2021 3) (upstream_down 2026) =
    Ok (PDict {[ "season" := PInt 2021; "round" := PInt 3;
                 "count" := PInt 0; "items" := PList [];
                 "offline" := PBool true ]}).
Proof.
  destruct (unavailable_gives_empty_offline 2021 3 (upstream_down 2026))
    as (Hd & _ & _ & Hr).
  split; [apply Hd|apply Hr]; eexists; reflexivity.
Defined.

(** [C7] When the upstream answers the results request successfully with an
    empty race list, [race_results] returns
    [{season, round, count: 0, items: []}] and the client gets status 200. *)
Theorem results_without_races season round w d mrdata table :
  outcome (upstream_call (Results season round)) w = Ok (PDict d) →
  d !! "MRData" = Some (PDict mrdata) →
  mrdata !! "RaceTable" = Some (PDict table) →
  table !! "Races" = Some (PList []) →
  outcome (race_results season round) w =
    Ok (PDict {[ "season" := PInt season; "round" := PInt round;
                 "count" := PInt 0; "items" := PList [] ]}) ∧
  fst (http_reply (outcome (race_results season round) w)) = 200.
Proof.
  intros Hup Hd Hm Ht. simpl in Hup.
  assert (outcome (race_results season round) w =
          Ok (PDict {[ "season" := PInt season; "round" := PInt round;
                       "count" := PInt 0; "items" := PList [] ]})) as Hres.
  { unfold race_results. rewrite outcome_unless, outcome_bind, Hup. run.
    unfold py_get at 1. rewrite Hd. simpl default. run.
    unfold py_get at 1. rewrite Hm. simpl default. run.
    unfold py_get at 1. rewrite Ht. reflexivity. }
  rewrite Hres. split; reflexivity.
Qed.

Lemma results_without_races_witness :
  outcome (race_results 2021 30)
    (upstream_replies 200
       (Parsed (PDict {[ "MRData" :=
          PDict {[ "RaceTable" := PDict {[ "Races" := PList [] ]} ]} ]})) 2026) =
  Ok (PDict {[ "season" := PInt 2021; "round" := PInt 30;
               "count" := PInt 0; "items" := PList [] ]}).
Proof.
  refine (proj1 (results_without_races 2021 30 _ _ _ _ _ _ _ _));
    [reflexivity| | |]; reflexivity.
Defined.

(** [C10] Called without [limit] and [offset], [list_seasons] runs exactly as
    with [limit = 80] and [offset = 0]: the request it sends carries these
    two values as its parameters, and on the 503 error it returns what
    [offline_seasons] returns for them (which are that function's own
    defaults as well). *)
Theorem seasons_defaults w :
  list_seasons None None w = list_seasons (Some 80) (Some 0) w ∧
  requests_sent (list_seasons None None) w =
    [mkRequest "https://ergast.com/api/f1/seasons.json"
       (Some {[ "limit" := 80; "offset" := 0 ]}) 15] ∧
  (unavailable (outcome (upstream_call (Seasons None None)) w) →
   outcome (list_seasons None None) w =
     outcome (offline_seasons (Some 80) (Some 0)) w) ∧
  offline_seasons None None w = offline_seasons (Some 80) (Some 0) w.
Proof.
  split; [reflexivity|]. split.
  { change (list_seasons None None) with (handle (Seasons None None)).
    rewrite handle_sent. simpl. rewrite fetch_ergast_sent. reflexivity. }
  split; [|reflexivity].
  intros Hun. apply (list_seasons_unavailable None None w Hun).
Qed.

Lemma seasons_defaults_witness :
  outcome (list_seasons None None) (upstream_down 2026) =
  outcome (offline_seasons (Some 80) (Some 0)) (upstream_down 2026).
Proof.
  refine (proj1 (proj2 (proj2 (seasons_defaults (upstream_down 2026)))) _).
  eexists. reflexivity.
Defined.

(** ** The offline seasons generator *)

Lemma foldl_snoc_fmap {X Y} (f : X → Y) (l : list X) (acc : list Y) :
  foldl (λ acc x, (acc ++ [f x])%list) acc l = (acc ++ (f <$> l))%list.
Proof.
  revert acc. induction l as [|x l IH]; intros acc; simpl.
  - symmetry. apply app_nil_r.
  - rewrite IH, <- app_assoc. reflexivity.
Qed.

Lemma seasons_list_fmap cy :
  seasons_list cy = season_record <$> seqZ 1950 (cy + 1 - 1950).
Proof. unfold seasons_list, py_range. rewrite foldl_snoc_fmap. reflexivity. Qed.

Lemma seasons_list_length cy :
  Z.of_nat (length (seasons_list cy)) = total_years cy.
Proof.
  rewrite seasons_list_fmap, length_fmap, length_seqZ. unfold total_years. lia.
Qed.

Lemma seasons_list_lookup cy (i : nat) :
  seasons_list cy !! i =
  if Z.of_nat i <? total_years cy
  then Some (season_record (1950 + Z.of_nat i)) else None.
Proof.
  rewrite seasons_list_fmap, list_lookup_fmap. unfold total_years.
  destruct (Z.ltb_spec (Z.of_nat i) (Z.max 0 (cy - 1950 + 1))).
  - rewrite lookup_seqZ_lt by lia. reflexivity.
  - rewrite lookup_seqZ_ge by lia. reflexivity.
Qed.

(** With bounds that are not negative a slice is a plain window. *)
Lemma py_slice_window {X} (l : list X) (start n : Z) :
  0 ≤ start → 0 ≤ n →
  py_slice l start (start + n) = take (Z.to_nat n) (drop (Z.to_nat start) l).
Proof.
  intros Hs Hn. unfold py_slice, slice_bound.
  destruct (Z.ltb_spec start 0); [lia|].
  destruct (Z.ltb_spec (start + n) 0); [lia|].
  destruct (Z.le_gt_cases (Z.of_nat (length l)) start) as [Hout|Hin].
  - rewrite !drop_ge by lia. rewrite !take_nil. reflexivity.
  - replace (Z.to_nat (start `min` Z.of_nat (length l))) with (Z.to_nat start) by lia.
    destruct (Z.le_gt_cases (start + n) (Z.of_nat (length l))).
    + f_equal. lia.
    + rewrite !take_ge; [reflexivity| |]; rewrite length_drop; lia.
Qed.

Lemma season_record_season y :
  py_item (season_record y) "season" = Ok (PStr (pretty y)).
Proof. unfold season_record, py_item. rewrite lookup_insert_eq. reflexivity. Qed.

Lemma season_record_url y :
  py_item (season_record y) "url" = Ok (PStr (wikipedia_url y)).
Proof.
  unfold season_record, py_item.
  rewrite lookup_insert_ne by discriminate.
  rewrite lookup_singleton_eq. reflexivity.
Qed.

Lemma has_season_record year y :
  has_season year (season_record y) = bool_decide (y = year).
Proof.
  unfold has_season. rewrite season_record_season.
  destruct (String.eqb_spec (pretty y) (pretty year)) as [Heq|Hne].
  - apply (inj pretty) in Heq. rewrite bool_decide_eq_true_2; done.
  - rewrite bool_decide_eq_false_2; [done|]. intros ->. done.
Qed.

(** With a start and a stop that are not negative a slice is a plain
    window, empty when the stop is before the start. *)
Lemma py_slice_from {X} (l : list X) (start n : Z) :
  0 ≤ start → 0 ≤ start + n →
  py_slice l start (start + n) = take (Z.to_nat n) (drop (Z.to_nat start) l).
Proof.
  intros Hs Hn. destruct (Z.le_gt_cases 0 n) as [Hpos|Hneg].
  - apply py_slice_window; assumption.
  - unfold py_slice, slice_bound.
    destruct (Z.ltb_spec start 0); [lia|].
    destruct (Z.ltb_spec (start + n) 0); [lia|].
    replace (Z.to_nat n) with 0%nat by lia.
    replace (Z.to_nat (Z.min (start + n) (Z.of_nat (length l))
                       - Z.min start (Z.of_nat (length l)))) with 0%nat by lia.
    reflexivity.
Qed.

(** [C3] (as amended) For [offset >= 0] and [offset + limit >= 0],
    [offline_seasons] returns [max 0 (min limit (totalYears - offset))]
    items, and they are the records of the consecutive years from
    [1950 + offset] on: when [offset < totalYears] and [limit > 0] the first
    item has season [str (1950 + offset)], and an offset at or past
    [totalYears] gives no items. *)
Theorem offline_seasons_page limit offset w :
  0 ≤ offset → 0 ≤ offset + limit →
  ∃ items,
    outcome (offline_seasons (Some limit) (Some offset)) w =
      Ok (PDict {[ "count" := PInt (Z.of_nat (length items));
                   "items" := PList items;
                   "offline" := PBool true ]}) ∧
    Z.of_nat (length items) =
      Z.max 0 (Z.min limit (total_years (utcnow_year w) - offset)) ∧
    items = season_record <$> seqZ (1950 + offset) (Z.of_nat (length items)) ∧
    (offset < total_years (utcnow_year w) → 0 < limit →
     ∃ first, items !! 0%nat = Some first ∧
              py_item first "season" = Ok (PStr (pretty (1950 + offset)))) ∧
    (total_years (utcnow_year w) ≤ offset → items = []).
Proof.
  intros Hoffset Hstop.
  exists (py_slice (seasons_list (utcnow_year w)) offset (offset + limit)).
  split; [reflexivity|].
  rewrite py_slice_from by assumption.
  set (cy := utcnow_year w).
  pose proof (seasons_list_length cy) as Hlen.
  assert (Z.of_nat (length (take (Z.to_nat limit)
                              (drop (Z.to_nat offset) (seasons_list cy)))) =
          Z.max 0 (Z.min limit (total_years cy - offset))) as Hcount.
  { rewrite length_take, length_drop. lia. }
  split; [exact Hcount|]. split; [|split].
  - rewrite Hcount. apply list_eq. intros i.
    rewrite lookup_take, lookup_drop, seasons_list_lookup, list_lookup_fmap.
    case_decide as Hi.
    + destruct (Z.ltb_spec (Z.of_nat (Z.to_nat offset + i)) (total_years cy)).
      * rewrite lookup_seqZ_lt by lia. simpl. do 2 f_equal. lia.
      * rewrite lookup_seqZ_ge by lia. reflexivity.
    + rewrite lookup_seqZ_ge by lia. reflexivity.
  - intros Hin Hpos. exists (season_record (1950 + offset)). split.
    + rewrite lookup_take_lt by lia.
      rewrite lookup_drop, seasons_list_lookup.
      destruct (Z.ltb_spec (Z.of_nat (Z.to_nat offset + 0)) (total_years cy));
        [|lia].
      do 2 f_equal. lia.
    + apply season_record_season.
  - intros Hout. rewrite drop_ge by lia. apply take_nil.
Qed.

Lemma offline_seasons_page_witness :
  ∃ items,
    outcome (offline_seasons (Some 2) (Some 70)) (upstream_down 2026) =
      Ok (PDict {[ "count" := PInt (Z.of_nat (length items));
                   "items" := PList items;
                   "offline" := PBool true ]}) ∧
    Z.of_nat (length items) = 2.
Proof.
  destruct (offline_seasons_page 2 70 (upstream_down 2026)) as (items & H1 & H2 & _);
    [lia|lia|].
  exists items. split; [exact H1|]. rewrite H2. reflexivity.
Defined.

(** [C3] (as stated) A negative start or stop of the slice counts from the
    end of the list.  In 2026, [limit = 80] with [offset = -1] (start -1)
    gives the one record of 2026 where the stated count is 78 and the stated
    first season is 1949; [limit = -1] with [offset = 0] (stop -1) gives the
    76 records of 1950 to 2025 where the stated count is 0. *)
Lemma offline_seasons_negative_bounds :
  (outcome (offline_seasons (Some 80) (Some (-1))) (upstream_down 2026) =
     Ok (PDict {[ "count" := PInt 1;
                  "items" := PList [season_record 2026];
                  "offline" := PBool true ]}) ∧
   1 ≠ Z.max 0 (Z.min 80 (total_years 2026 - (-1))) ∧
   py_item (season_record 2026) "season" ≠ Ok (PStr (pretty (1950 + (-1))))) ∧
  (outcome (offline_seasons (Some (-1)) (Some 0)) (upstream_down 2026) =
     Ok (PDict {[ "count" := PInt 76;
                  "items" := PList (season_record <$> seqZ 1950 76);
                  "offline" := PBool true ]}) ∧
   76 ≠ Z.max 0 (Z.min (-1) (total_years 2026 - 0))).
Proof.
  repeat split; try (vm_compute; reflexivity); vm_compute; discriminate.
Qed.

Lemma filter_has_season year (l : list Z) :
  NoDup l →
  length (List.filter (has_season year) (season_record <$> l)) =
  if bool_decide (year ∈ l) then 1%nat else 0%nat.
Proof.
  induction 1 as [|y l Hnotin Hnodup IH]; [reflexivity|].
  rewrite fmap_cons. simpl List.filter. rewrite has_season_record.
  destruct (decide (y = year)) as [->|Hne].
  - rewrite bool_decide_eq_true_2 by done. simpl. rewrite IH.
    rewrite (bool_decide_eq_false_2 (year ∈ l)) by done.
    rewrite bool_decide_eq_true_2; [done|]. left.
  - rewrite bool_decide_eq_false_2 by done. rewrite IH.
    rewrite (bool_decide_ext (year ∈ y :: l) (year ∈ l)); [done|].
    rewrite elem_of_cons. split; [intros [?|?]; [congruence|done]|by right].
Qed.

(** [C4] For every year from 1950 through the current year, the full list
    of the generator holds exactly one record whose [season] is the string
    form of that year, and the [url] of that record is the Wikipedia page
    of that year's championship. *)
Theorem seasons_list_one_per_year current_year year :
  1950 ≤ year ≤ current_year →
  length (List.filter (has_season year) (seasons_list current_year)) = 1%nat ∧
  ∀ record, record ∈ seasons_list current_year →
            has_season year record = true →
            py_item record "url" = Ok (PStr (wikipedia_url year)).
Proof.
  intros Hyear. rewrite seasons_list_fmap. split.
  - rewrite filter_has_season by apply NoDup_seqZ.
    rewrite bool_decide_eq_true_2; [done|]. apply elem_of_seqZ. lia.
  - intros record Hin Hseason.
    apply list_elem_of_fmap in Hin as (y & -> & _).
    rewrite has_season_record in Hseason.
    apply bool_decide_eq_true_1 in Hseason as ->.
    apply season_record_url.
Qed.

Lemma seasons_list_one_per_year_witness :
  length (List.filter (has_season 1994) (seasons_list 2026)) = 1%nat.
Proof. apply (seasons_list_one_per_year 2026 1994). lia. Defined.

(** ** Requested URLs *)

Lemma append_cons x (a b : string) : String x a +:+ b = String x (a +:+ b).
Proof. reflexivity. Qed.

Lemma append_assoc (a b c : string) : (a +:+ b) +:+ c = a +:+ (b +:+ c).
Proof.
  induction a as [|x a IH]; [reflexivity|].
  rewrite !append_cons, IH. reflexivity.
Qed.

Lemma length_append (a b : string) :
  String.length (a +:+ b) = (String.length a + String.length b)%nat.
Proof.
  induction a as [|x a IH]; [reflexivity|].
  rewrite append_cons. simpl. rewrite IH. reflexivity.
Qed.

Lemma ends_with_append (p suffix : string) : ends_with suffix (p +:+ suffix) = true.
Proof.
  induction p as [|x p IH].
  - change ("" +:+ suffix) with suffix.
    destruct suffix; simpl; rewrite ?Ascii.eqb_refl, ?String.eqb_refl; reflexivity.
  - rewrite append_cons. simpl. rewrite IH. apply orb_true_r.
Qed.

Lemma ends_with_inv (suffix s : string) :
  ends_with suffix s = true → ∃ p, s = p +:+ suffix.
Proof.
  induction s as [|x s IH]; simpl; intros H.
  - rewrite orb_false_r in H. apply String.eqb_eq in H. exists "". by subst.
  - apply orb_true_iff in H as [H|H].
    + apply String.eqb_eq in H. exists "". by subst.
    + destruct (IH H) as [p ->]. exists (String x p). reflexivity.
Qed.

(** A suffix no longer than the tail of a concatenation is a suffix of the
    tail. *)
Lemma append_suffix_inv (a b p q : string) :
  a +:+ b = p +:+ q → (String.length q ≤ String.length b)%nat →
  ∃ r, b = r +:+ q.
Proof.
  revert p. induction a as [|x a IH]; intros p Heq Hlen.
  - exists p. exact Heq.
  - destruct p as [|y p].
    + change ("" +:+ q) with q in Heq. subst q.
      rewrite length_append in Hlen. simpl in Hlen. lia.
    + rewrite !append_cons in Heq. injection Heq as _ Heq. eauto.
Qed.

Lemma ends_with_tail (suffix a b : string) :
  (String.length suffix ≤ String.length b)%nat →
  ends_with suffix (a +:+ b) = ends_with suffix b.
Proof.
  intros Hlen. destruct (ends_with suffix b) eqn:Hb.
  - apply ends_with_inv in Hb as [r ->].
    rewrite <- append_assoc. apply ends_with_append.
  - destruct (ends_with suffix (a +:+ b)) eqn:Hab; [|reflexivity].
    apply ends_with_inv in Hab as [p Hp].
    destruct (append_suffix_inv _ _ _ _ Hp Hlen) as [r ->].
    rewrite ends_with_append in Hb. discriminate.
Qed.

(** [C8] The upstream client requests [{base}/{p}.json] for every path [p].
    Every data endpoint sends one request, for its own path.  The races
    endpoint passes ["{season}.json"] as the path, so its URL ends in
    [".json.json"]; the URL of every other endpoint ends in [".json"] and
    not in [".json.json"]. *)
Theorem requested_urls w :
  (∀ p ps, requests_sent (fetch_ergast p ps) w =
           [mkRequest (ERGAST_BASE +:+ "/" +:+ p +:+ ".json") ps 15]) ∧
  (∀ season, requests_sent (list_races season) w =
             requests_sent (fetch_ergast (pretty season +:+ ".json") None) w) ∧
  (∀ ep, ∃ req,
     requests_sent (handle ep) w = [req] ∧
     url req = ERGAST_BASE +:+ "/" +:+ endpoint_path ep +:+ ".json" ∧
     ends_with ".json" (url req) = true ∧
     ends_with ".json.json" (url req) =
       match ep with Races _ => true | _ => false end).
Proof.
  split; [intros; apply fetch_ergast_sent|].
  split; [intros season; apply (handle_sent (Races season))|].
  intros ep. exists (ergast_request (endpoint_path ep) (params_of ep)).
  split; [rewrite handle_sent; destruct ep; simpl; apply fetch_ergast_sent|].
  split; [reflexivity|].
  destruct ep; unfold ergast_request, ERGAST_BASE, endpoint_path; cbn [url].
  - split; vm_compute; reflexivity.
  - rewrite <- !append_assoc, (append_assoc _ "/drivers" ".json").
    rewrite !ends_with_tail by (simpl; lia). split; reflexivity.
  - rewrite <- !append_assoc, (append_assoc _ "/constructors" ".json").
    rewrite !ends_with_tail by (simpl; lia). split; reflexivity.
  - rewrite <- !append_assoc, (append_assoc _ ".json" ".json").
    rewrite !ends_with_tail by (simpl; lia). split; reflexivity.
  - rewrite <- !append_assoc, (append_assoc _ "/results" ".json").
    rewrite !ends_with_tail by (simpl; lia). split; reflexivity.
Qed.

Lemma requested_urls_witness :
  ∃ req,
    requests_sent (handle (Races 2021)) (upstream_down 2026) = [req] ∧
    url req = "https://ergast.com/api/f1/2021.json.json" ∧
    ends_with ".json.json" (url req) = true.
Proof.
  destruct (proj2 (proj2 (requested_urls (upstream_down 2026))) (Races 2021))
    as (req & Hsent & Hurl & _ & Hdouble).
  exists req. split; [exact Hsent|]. split; [rewrite Hurl; reflexivity|exact Hdouble].
Defined.

(** ** Envelopes with a missing level *)

Ltac envelope :=
  repeat match goal with
  | H : context [match ?d !! ?k with _ => _ end] |- _ =>
      destruct (d !! k) as [[]|] eqn:?; try discriminate H
  end.

(** [C1] (as amended) For every data endpoint, when the upstream client
    returns a JSON object from which a level of the envelope path is missing
    (the top-level wrapper, the table wrapper inside it, or the list inside
    that one, the levels above the missing one being objects), the handler
    returns its response with [count: 0] and an empty [items] list, and the
    client gets status 200. *)
Theorem missing_level_gives_no_items ep w data :
  outcome (upstream_call ep) w = Ok data →
  level_missing data (table_key ep) (list_key ep) = true →
  outcome (handle ep) w = Ok (empty_response ep) ∧
  fst (http_reply (outcome (handle ep) w)) = 200.
Proof.
  intros Hup Hmiss.
  assert (outcome (handle ep) w = Ok (empty_response ep)) as Hres.
  { destruct ep; simpl in *;
      [unfold list_seasons|unfold list_drivers|unfold list_constructors
      |unfold list_races|unfold race_results];
      rewrite outcome_unless, outcome_bind, Hup; run;
      destruct data; try discriminate Hmiss; unfold level_missing in Hmiss;
      unfold py_get at 1; envelope; simpl default; run;
      unfold py_get at 1; rewrite ?lookup_empty; envelope;
      repeat match goal with H : _ !! _ = _ |- _ => rewrite H end;
      simpl default; run;
      unfold py_get at 1; rewrite ?lookup_empty;
      repeat match goal with H : _ !! _ = _ |- _ => rewrite H end;
      reflexivity. }
  rewrite Hres. split; [reflexivity|]. destruct ep; reflexivity.
Qed.

(** A body that is not a JSON object stops every handler at its first
    [.get]. *)
Lemma non_object_body_fails ep w data :
  outcome (upstream_call ep) w = Ok data →
  (∀ d, data ≠ PDict d) →
  outcome (handle ep) w = Raise AttributeError.
Proof.
  intros Hup Hshape.
  destruct ep; simpl in *;
    [unfold list_seasons|unfold list_drivers|unfold list_constructors
    |unfold list_races|unfold race_results];
    rewrite outcome_unless, outcome_bind, Hup; run;
    destruct data; try reflexivity; edestruct Hshape; reflexivity.
Qed.

Lemma missing_level_gives_no_items_witness :
  outcome (handle (Drivers 2021))
    (upstream_replies 200
       (Parsed (PDict {[ "MRData" := PDict {[ "series" := PStr "f1" ]} ]})) 2026) =
  Ok (PDict {[ "season" := PInt 2021; "count" := PInt 0; "items" := PList [] ]}).
Proof.
  refine (proj1 (missing_level_gives_no_items (Drivers 2021)
     (upstream_replies 200
        (Parsed (PDict {[ "MRData" := PDict {[ "series" := PStr "f1" ]} ]})) 2026)
     (PDict {[ "MRData" := PDict {[ "series" := PStr "f1" ]} ]}) _ _));
    reflexivity.
Defined.

(** [C1] (as stated) Two successful upstream answers on which a handler
    fails: a first race without the [Results] field makes [race_results]
    raise [KeyError], and a body that is JSON [null] makes [list_seasons]
    raise [AttributeError]. *)
Lemma handlers_fail_on_parsed_json :
  (outcome (upstream_call (Results 2021 1))
     (upstream_replies 200 (Parsed race_without_results) 2026) =
     Ok race_without_results ∧
   outcome (race_results 2021 1)
     (upstream_replies 200 (Parsed race_without_results) 2026) =
     Raise KeyError) ∧
  (outcome (upstream_call (Seasons None None))
     (upstream_replies 200 (Parsed PNone) 2026) = Ok PNone ∧
   outcome (list_seasons None None)
     (upstream_replies 200 (Parsed PNone) 2026) = Raise AttributeError).
Proof. repeat split; vm_compute; reflexivity. Qed.

(** ** Favourites *)

Lemma stringify_id_other repr (d : gmap string pyval) k :
  k ≠ "_id" → stringify_id repr d !! k = d !! k.
Proof.
  intros Hk. unfold stringify_id. destruct (d !! "_id"); [|reflexivity].
  apply lookup_insert_ne. congruence.
Qed.

Lemma stringify_id_id repr (d : gmap string pyval) :
  stringify_id repr d !! "_id" = (λ v, PStr (py_str repr v)) <$> d !! "_id".
Proof.
  unfold stringify_id. destruct (d !! "_id") eqn:Hid; simpl.
  - apply lookup_insert_eq.
  - exact Hid.
Qed.

(** Visiting a document a second time changes nothing, so a list that
    holds the same dictionary twice is handled like any other. *)
Lemma stringify_id_idem repr (d : gmap string pyval) :
  stringify_id repr (stringify_id repr d) = stringify_id repr d.
Proof.
  apply map_eq. intros k. destruct (decide (k = "_id")) as [->|Hk].
  - rewrite !stringify_id_id. destruct (d !! "_id"); reflexivity.
  - rewrite !stringify_id_other by assumption. reflexivity.
Qed.

Lemma has_object_id_dict (d : gmap string pyval) :
  has_object_id (PDict d) = false ↔
  map_Forall (λ _ v, has_object_id v = false) d.
Proof.
  simpl.
  apply (map_fold_weak_ind
           (λ r m, r = false ↔ map_Forall (λ _ v, has_object_id v = false) m)).
  - split; [intros _; apply map_Forall_empty|reflexivity].
  - intros k v m r Hfresh IH.
    rewrite map_Forall_insert by assumption.
    rewrite orb_false_iff, IH. reflexivity.
Qed.

Lemma listing_has_string_ids repr (docs : list (gmap string pyval)) :
  listing_with_string_ids repr docs
    (Ok (PDict {[ "count" := PInt (Z.of_nat (length (stringify_id repr <$> docs)));
                  "items" := PList (PDict <$> (stringify_id repr <$> docs)) ]})).
Proof.
  assert (∀ d items,
    Ok (PDict {[ "count" := PInt (Z.of_nat (length (stringify_id repr <$> docs)));
                 "items" := PList (PDict <$> (stringify_id repr <$> docs)) ]})
      = Ok (PDict d) →
    d !! "items" = Some (PList items) →
    items = PDict <$> (stringify_id repr <$> docs)) as Hitems.
  { intros d items [= <-].
    rewrite lookup_insert_ne by discriminate.
    rewrite lookup_singleton_eq. congruence. }
  split; [|split].
  - exists (stringify_id repr <$> docs).
    split; [reflexivity|]. split; [apply length_fmap|].
    intros i d Hd. exists (stringify_id repr d). split; [|split].
    + rewrite list_lookup_fmap, Hd. reflexivity.
    + intros k Hk. apply stringify_id_other, Hk.
    + apply stringify_id_id.
  - intros d items record v Hr Hd Hin Hid.
    rewrite (Hitems d items Hr Hd) in Hin.
    apply list_elem_of_fmap in Hin as (record' & [= ->] & Hin).
    apply list_elem_of_fmap in Hin as (doc & -> & _).
    rewrite stringify_id_id in Hid.
    destruct (doc !! "_id"); simplify_eq/=. eauto.
  - intros Hclean d items record Hr Hd Hin.
    rewrite (Hitems d items Hr Hd) in Hin.
    apply list_elem_of_fmap in Hin as (record' & -> & Hin).
    apply list_elem_of_fmap in Hin as (doc & -> & Hdoc).
    apply has_object_id_dict. intros k v Hk.
    destruct (decide (k = "_id")) as [->|Hne].
    + rewrite stringify_id_id in Hk.
      destruct (doc !! "_id"); simplify_eq/=. reflexivity.
    + rewrite stringify_id_other in Hk by assumption. eauto.
Qed.

Lemma outcome_call_get_documents name w :
  outcome (call_get_documents name) w = get_documents w name.
Proof. reflexivity. Qed.

(** [C9] Whatever documents the store returns, [get_favorite_drivers] and
    [get_favorite_constructors] return them in the same order with the
    [_id] of every document that has one replaced by its string form, the
    other fields unchanged.  So no returned record has an [_id] of the raw
    identifier type, and no raw identifier is left anywhere in a record
    when [_id] was the only field that held one. *)
Theorem favourites_have_string_ids repr w docs :
  (get_documents w "favoritedriver" = Ok docs →
   listing_with_string_ids repr docs (outcome (get_favorite_drivers repr) w)) ∧
  (get_documents w "favoriteconstructor" = Ok docs →
   listing_with_string_ids repr docs
     (outcome (get_favorite_constructors repr) w)).
Proof.
  split; intros Hdocs;
    [unfold get_favorite_drivers|unfold get_favorite_constructors];
    rewrite outcome_bind, outcome_call_get_documents, Hdocs;
    apply listing_has_string_ids.
Qed.

Lemma favourites_have_string_ids_witness :
  listing_with_string_ids (λ _, "")
    [ {[ "_id" := PObjectId "65f1c0ffee0123456789abcd";
         "driver_id" := PStr "hamilton"; "code" := PNone ]} ]
    (outcome (get_favorite_drivers (λ _, ""))
       (store_of [ {[ "_id" := PObjectId "65f1c0ffee0123456789abcd";
                      "driver_id" := PStr "hamilton"; "code" := PNone ]} ])).
Proof.
  refine (proj1 (favourites_have_string_ids (λ _, "") (store_of _) _) _).
  reflexivity.
Defined.

(** ** Worked examples *)

Example drivers_online :
  outcome (list_drivers 2021)
    (upstream_replies 200
       (Parsed (PDict {[ "MRData" := PDict {[ "DriverTable" := PDict {[
          "Drivers" := PList [PDict {[ "driverId" := PStr "alonso" ]};
                              PDict {[ "driverId" := PStr "hamilton" ]}] ]} ]} ]}))
       2026) =
  Ok (PDict {[ "season" := PInt 2021; "count" := PInt 2;
               "items" := PList [PDict {[ "driverId" := PStr "alonso" ]};
                                 PDict {[ "driverId" := PStr "hamilton" ]}] ]}).
Proof. vm_compute. reflexivity. Qed.

Example results_online :
  outcome (race_results 2021 1)
    (upstream_replies 200
       (Parsed (PDict {[ "MRData" := PDict {[ "RaceTable" := PDict {[
          "Races" := PList [PDict {[ "Results" :=
             PList [PDict {[ "position" := PStr "1" ]}] ]}] ]} ]} ]}))
       2026) =
  Ok (PDict {[ "season" := PInt 2021; "round" := PInt 1; "count" := PInt 1;
               "items" := PList [PDict {[ "position" := PStr "1" ]}] ]}).
Proof. vm_compute. reflexivity. Qed.

Example seasons_offline_page :
  outcome (list_seasons (Some 2) (Some 70)) (upstream_down 2026) =
  Ok (PDict {[ "count" := PInt 2;
               "items" := PList [season_record 2020; season_record 2021];
               "offline" := PBool true ]}).
Proof. vm_compute. reflexivity. Qed.

Example season_record_2020 :
  season_record 2020 =
  PDict {[ "season" := PStr "2020";
           "url" := PStr "https://en.wikipedia.org/wiki/2020_Formula_One_World_Championship" ]}.
Proof. vm_compute. reflexivity. Qed.

Example drivers_not_found :
  outcome (list_drivers 1900) (upstream_replies 404 (Undecodable false) 2026) =
  Raise (HTTPException 502 "Upstream error 404").
Proof. vm_compute. reflexivity. Qed.

Example drivers_request :
  requests_sent (list_drivers 2021) (upstream_down 2026) =
  [mkRequest "https://ergast.com/api/f1/2021/drivers.json" None 15].
Proof. vm_compute. reflexivity. Qed.

Example body_not_json :
  outcome (fetch_ergast "seasons" None)
    (upstream_replies 200 (Undecodable true) 2026) =
    Raise (HTTPException 503 "External data source unavailable: ergast.com") ∧
  outcome (fetch_ergast "seasons" None)
    (upstream_replies 200 (Undecodable false) 2026) = Raise ValueError.
Proof. split; vm_compute; reflexivity. Qed.

(** ** The upstream client, case by case *)

(** [X1] Whatever the upstream does, a data endpoint sends exactly one
    request, with a timeout of 15: there is no second attempt, also when the
    handler falls back.  Only the seasons endpoint sends query parameters,
    and they are the caller's [limit] and [offset]. *)
Theorem one_request_per_call ep w :
  ∃ req,
    requests_sent (handle ep) w = [req] ∧
    timeout req = 15 ∧
    params req =
      match ep with
      | Seasons limit offset =>
          Some {[ "limit" := default 80 limit; "offset" := default 0 offset ]}
      | _ => None
      end ∧
    ∀ w', requests_sent (handle ep) w' = [req].
Proof.
  destruct ep; eexists;
    (split; [rewrite handle_sent; simpl; apply fetch_ergast_sent|]);
    (split; [reflexivity|]); (split; [reflexivity|]);
    intros w'; rewrite handle_sent; simpl; apply fetch_ergast_sent.
Qed.

(** [X2] The upstream client returns a value exactly when the upstream
    answered with status 200 and a body that parses, and the value is the
    parsed body, unchanged. *)
Theorem fetch_returns_parsed_body endpoint ps w v :
  outcome (fetch_ergast endpoint ps) w = Ok v ↔
  ∃ r, requests_get w (ergast_request endpoint ps) = Some r ∧
       status_code r = 200 ∧ content r = Parsed v.
Proof.
  rewrite fetch_ergast_outcome. split.
  - destruct (requests_get w _) as [r|]; [|discriminate].
    destruct (Z.eqb_spec (status_code r) 200) as [Hst|]; [|discriminate].
    destruct (content r) as [v'|[]|class_name] eqn:Hc; try discriminate.
    intros [= ->]. eauto.
  - intros (r & -> & Hst & Hc). rewrite Hst, Hc. reflexivity.
Qed.



(** ** Data endpoints on a successful upstream answer *)

Lemma outcome_if {A} (b : bool) (m1 m2 : M A) w :
  outcome (if b then m1 else m2) w = if b then outcome m1 w else outcome m2 w.
Proof. destruct b; reflexivity. Qed.

(** The built-ins raise Python errors, never an [HTTPException]. *)
Lemma plain_bind {A B} (r : result A) (k : A → result B) sc d :
  r ≠ Raise (HTTPException sc d) →
  (∀ a, k a ≠ Raise (HTTPException sc d)) →
  result_bind r k ≠ Raise (HTTPException sc d).
Proof.
  intros Hr Hk. destruct r; simpl; [apply Hk|].
  intros [= ->]. apply Hr. reflexivity.
Qed.

Lemma py_get_plain v key dflt sc d : py_get v key dflt ≠ Raise (HTTPException sc d).
Proof. destruct v; discriminate. Qed.

Lemma py_len_plain v sc d : py_len v ≠ Raise (HTTPException sc d).
Proof. destruct v; discriminate. Qed.

Lemma py_first_plain v sc d : py_first v ≠ Raise (HTTPException sc d).
Proof. destruct v as [| | | |[|]|[|]| |]; discriminate. Qed.

Lemma py_item_plain v key sc d : py_item v key ≠ Raise (HTTPException sc d).
Proof. destruct v; simpl; try discriminate. destruct (_ !! _); discriminate. Qed.

Lemma reshape_plain ep data sc d : reshape ep data ≠ Raise (HTTPException sc d).
Proof.
  unfold reshape.
  apply plain_bind; [apply py_get_plain|intros mrdata].
  apply plain_bind; [apply py_get_plain|intros table].
  apply plain_bind; [apply py_get_plain|intros found].
  apply plain_bind.
  - destruct ep; try discriminate.
    destruct (py_truthy found); [|discriminate].
    apply plain_bind; [apply py_first_plain|intros race; apply py_item_plain].
  - intros items. apply plain_bind; [apply py_len_plain|discriminate].
Qed.

Lemma outcome_bind_result {A B} (m : M A) (k : A → M B) w :
  outcome (m ≫= k) w = result_bind (outcome m w) (λ a, outcome (k a) w).
Proof. apply outcome_bind. Qed.

Lemma result_bind_ext {A B} (r1 r2 : result A) (k1 k2 : A → result B) :
  r1 = r2 → (∀ a, k1 a = k2 a) → result_bind r1 k1 = result_bind r2 k2.
Proof. intros <- H. destruct r1; simpl; auto. Qed.

Lemma outcome_unless_plain {A} (body fallback : M A) w :
  (∀ sc d, outcome body w ≠ Raise (HTTPException sc d)) →
  outcome (unless_unavailable body fallback) w = outcome body w.
Proof.
  intros Hplain. rewrite outcome_unless.
  destruct (outcome body w) as [|[]]; try reflexivity.
  edestruct Hplain; reflexivity.
Qed.

Ltac reshaping :=
  repeat (rewrite outcome_bind_result; apply result_bind_ext;
          [apply outcome_lift|intros ?]).

(** On a value returned by the client a handler is the pure function
    [reshape]. *)
Lemma handle_success ep w data :
  outcome (upstream_call ep) w = Ok data →
  outcome (handle ep) w = reshape ep data.
Proof.
  intros Hup.
  destruct ep; unfold handle; simpl in Hup;
    [unfold list_seasons|unfold list_drivers|unfold list_constructors
    |unfold list_races|unfold race_results];
    match goal with
    | |- outcome (unless_unavailable ?body _) w = ?r =>
        assert (outcome body w = r) as Hbody;
        [|rewrite outcome_unless_plain;
          [exact Hbody|intros sc d; rewrite Hbody; apply reshape_plain]]
    end;
    rewrite outcome_bind, Hup; cbn beta iota;
    unfold reshape; simpl table_key; simpl list_key; reshaping.
  1-4: simpl result_bind at 1; reshaping; reflexivity.
  rewrite outcome_bind_result. apply result_bind_ext.
  - rewrite outcome_if. destruct (py_truthy _); [|reflexivity].
    reshaping. apply outcome_lift.
  - intros items. reshaping. reflexivity.
Qed.

(** [X4] When the envelope of the seasons, drivers, constructors or races
    endpoint holds a list at the end of its path, the handler returns this
    list unchanged as [items], its length as [count], the context fields,
    and no [offline] key. *)
Theorem list_is_passed_through ep w d mrdata table items :
  outcome (upstream_call ep) w = Ok (PDict d) →
  d !! "MRData" = Some (PDict mrdata) →
  mrdata !! table_key ep = Some (PDict table) →
  table !! list_key ep = Some (PList items) →
  (∀ season round, ep ≠ Results season round) →
  outcome (handle ep) w =
    Ok (envelope_response ep (Z.of_nat (length items)) (PList items)).
Proof.
  intros Hup Hd Hm Ht Hep.
  rewrite (handle_success _ _ _ Hup). unfold reshape, py_get.
  rewrite Hd. simpl. rewrite Hm. simpl. rewrite Ht. simpl.
  destruct ep; try reflexivity. edestruct Hep; reflexivity.
Qed.

Lemma list_is_passed_through_witness :
  outcome (handle (Constructors 2021))
    (upstream_replies 200
       (Parsed (PDict {[ "MRData" := PDict {[ "ConstructorTable" := PDict {[
          "Constructors" := PList [PStr "ferrari"; PStr "mclaren"] ]} ]} ]}))
       2026) =
  Ok (PDict {[ "season" := PInt 2021; "count" := PInt 2;
               "items" := PList [PStr "ferrari"; PStr "mclaren"] ]}).
Proof.
  refine (list_is_passed_through (Constructors 2021) _ _ _ _ _ _ _ _ _ _);
    [reflexivity|reflexivity|reflexivity|reflexivity|discriminate].
Defined.

(** [X5] When the list at the end of the envelope path of the seasons,
    drivers, constructors or races endpoint is a number, a boolean or
    [null], the handler fails with [TypeError] (there is no [len] of such a
    value) and the client gets status 500. *)
Theorem unsized_list_fails ep w d mrdata table found :
  outcome (upstream_call ep) w = Ok (PDict d) →
  d !! "MRData" = Some (PDict mrdata) →
  mrdata !! table_key ep = Some (PDict table) →
  table !! list_key ep = Some found →
  unsized found = true →
  (∀ season round, ep ≠ Results season round) →
  outcome (handle ep) w = Raise TypeError ∧
  fst (http_reply (outcome (handle ep) w)) = 500.
Proof.
  intros Hup Hd Hm Ht Hfound Hep.
  assert (outcome (handle ep) w = Raise TypeError) as Hres.
  { rewrite (handle_success _ _ _ Hup). unfold reshape, py_get.
    rewrite Hd. simpl. rewrite Hm. simpl. rewrite Ht. simpl.
    destruct ep; try (destruct found; try discriminate Hfound; reflexivity).
    edestruct Hep; reflexivity. }
  rewrite Hres. split; reflexivity.
Qed.

Lemma unsized_list_fails_witness :
  outcome (handle (Drivers 2021))
    (upstream_replies 200
       (Parsed (PDict {[ "MRData" := PDict {[ "DriverTable" := PDict {[
          "Drivers" := PNone ]} ]} ]})) 2026) = Raise TypeError.
Proof.
  refine (proj1 (unsized_list_fails (Drivers 2021) _ _ _ _ _ _ _ _ _ _ _));
    [reflexivity|reflexivity|reflexivity|reflexivity|reflexivity|discriminate].
Defined.

(** [X6] When the race list of the upstream answer starts with a race that
    has a [Results] list, [race_results] returns that list and its length;
    the races after the first one play no part. *)
Theorem first_race_results season round w d mrdata table race rest results :
  outcome (upstream_call (Results season round)) w = Ok (PDict d) →
  d !! "MRData" = Some (PDict mrdata) →
  mrdata !! "RaceTable" = Some (PDict table) →
  table !! "Races" = Some (PList (PDict race :: rest)) →
  race !! "Results" = Some (PList results) →
  outcome (race_results season round) w =
    Ok (PDict {[ "season" := PInt season; "round" := PInt round;
                 "count" := PInt (Z.of_nat (length results));
                 "items" := PList results ]}).
Proof.
  intros Hup Hd Hm Ht Hr.
  change (race_results season round) with (handle (Results season round)).
  rewrite (handle_success _ _ _ Hup). unfold reshape, py_get.
  rewrite Hd. simpl. rewrite Hm. simpl. rewrite Ht. simpl.
  rewrite Hr. reflexivity.
Qed.

Lemma first_race_results_witness :
  outcome (race_results 2021 1)
    (upstream_replies 200
       (Parsed (PDict {[ "MRData" := PDict {[ "RaceTable" := PDict {[
          "Races" := PList [PDict {[ "Results" := PList [PStr "VER"] ]};
                            PDict {[ "Results" := PList [PStr "HAM"] ]}] ]} ]} ]}))
       2026) =
  Ok (PDict {[ "season" := PInt 2021; "round" := PInt 1; "count" := PInt 1;
               "items" := PList [PStr "VER"] ]}).
Proof.
  refine (first_race_results 2021 1 _ _ _ _ _ _ _ _ _ _ _ _);
    reflexivity.
Defined.

(** [X7] When the first race of the upstream answer has no [Results] field,
    [race_results] fails with [KeyError] and the client gets status 500,
    whatever else the race holds and whatever races follow. *)
Theorem first_race_without_results season round w d mrdata table race rest :
  outcome (upstream_call (Results season round)) w = Ok (PDict d) →
  d !! "MRData" = Some (PDict mrdata) →
  mrdata !! "RaceTable" = Some (PDict table) →
  table !! "Races" = Some (PList (PDict race :: rest)) →
  race !! "Results" = None →
  outcome (race_results season round) w = Raise KeyError ∧
  fst (http_reply (outcome (race_results season round) w)) = 500.
Proof.
  intros Hup Hd Hm Ht Hr.
  assert (outcome (race_results season round) w = Raise KeyError) as Hres.
  { change (race_results season round) with (handle (Results season round)).
    rewrite (handle_success _ _ _ Hup). unfold reshape, py_get.
    rewrite Hd. simpl. rewrite Hm. simpl. rewrite Ht. simpl.
    rewrite Hr. reflexivity. }
  rewrite Hres. split; reflexivity.
Qed.

Lemma first_race_without_results_witness :
  outcome (race_results 2021 1)
    (upstream_replies 200 (Parsed race_without_results) 2026) = Raise KeyError.
Proof.
  refine (proj1 (first_race_without_results 2021 1 _ _ _ _ _ _ _ _ _ _ _));
    reflexivity.
Defined.

(** ** What every response of a data endpoint has *)

Lemma result_bind_Ok {A B} (r : result A) (k : A → result B) b :
  result_bind r k = Ok b → ∃ a, r = Ok a ∧ k a = Ok b.
Proof. destruct r; simpl; [eauto|discriminate]. Qed.

Lemma reshape_Ok ep data r :
  reshape ep data = Ok r →
  ∃ n items, r = envelope_response ep n items ∧ py_len items = Ok n.
Proof.
  unfold reshape. intros H.
  apply result_bind_Ok in H as (mrdata & _ & H).
  apply result_bind_Ok in H as (table & _ & H).
  apply result_bind_Ok in H as (found & _ & H).
  apply result_bind_Ok in H as (items & _ & H).
  apply result_bind_Ok in H as (n & Hlen & [= <-]).
  eauto.
Qed.

Lemma envelope_response_fields ep n items :
  ∃ d, envelope_response ep n items = PDict d ∧
       d !! "count" = Some (PInt n) ∧ d !! "items" = Some items ∧
       d !! "offline" = None.
Proof. destruct ep; eexists; (split; [reflexivity|]); repeat split. Qed.

(** The fallback of each endpoint: an [offline] response that has as many
    items as it counts. *)
Lemma handle_unavailable ep w :
  unavailable (outcome (upstream_call ep) w) →
  ∃ d (items : list pyval),
    outcome (handle ep) w = Ok (PDict d) ∧
    d !! "count" = Some (PInt (Z.of_nat (length items))) ∧
    d !! "items" = Some (PList items) ∧
    d !! "offline" = Some (PBool true).
Proof.
  intros [detail Hup].
  destruct ep; simpl in *;
    [unfold list_seasons|unfold list_drivers|unfold list_constructors
    |unfold list_races|unfold race_results];
    rewrite outcome_unless, outcome_bind, Hup; cbn beta iota;
    change (503 =? 503) with true; cbn beta iota.
  1: eexists _, _; split; [reflexivity|]; repeat split.
  all: eexists _, []; split; [reflexivity|]; repeat split.
Qed.

(** The three cases of a call of the upstream client. *)
Lemma upstream_cases ep w :
  (∃ data, outcome (upstream_call ep) w = Ok data) ∨
  unavailable (outcome (upstream_call ep) w) ∨
  (∃ e, outcome (upstream_call ep) w = Raise e ∧
        (∀ d, e ≠ HTTPException 503 d) ∧
        (∀ sc d, e = HTTPException sc d → sc = 502)).
Proof.
  destruct (upstream_call_fetch ep) as (endpoint & ps & ->).
  rewrite fetch_ergast_outcome.
  destruct (requests_get w _) as [r|]; [|right; left; eexists; reflexivity].
  destruct (status_code r =? 200).
  - destruct (content r) as [v|[]|class_name].
    + left. eauto.
    + right. left. eexists. reflexivity.
    + right. right. eexists. split; [reflexivity|]. split; intros; discriminate.
    + right. right. eexists. split; [reflexivity|]. split; intros; discriminate.
  - right. right. eexists. split; [reflexivity|].
    split; [intros; discriminate|]. intros sc d [= <- _]. reflexivity.
Qed.

(** [X8] In every response a data endpoint returns, [count] is the length
    of [items] (what [len] gives on it), on the online path and in the
    fallback alike. *)
Theorem count_is_length_of_items ep w r :
  outcome (handle ep) w = Ok r →
  ∃ d n items,
    r = PDict d ∧ d !! "count" = Some (PInt n) ∧
    d !! "items" = Some items ∧ py_len items = Ok n.
Proof.
  intros Hr.
  destruct (upstream_cases ep w) as [[data Hup]|[Hun|(e & Hup & Hne & _)]].
  - rewrite (handle_success _ _ _ Hup) in Hr.
    apply reshape_Ok in Hr as (n & items & -> & Hlen).
    destruct (envelope_response_fields ep n items) as (d & -> & Hc & Hi & _).
    eauto 10.
  - destruct (handle_unavailable _ _ Hun) as (d & items & Hres & Hc & Hi & _).
    rewrite Hres in Hr. injection Hr as <-.
    exists d, (Z.of_nat (length items)), (PList items). auto.
  - rewrite (handle_propagates _ _ _ Hup Hne) in Hr. discriminate.
Qed.

Lemma count_is_length_of_items_witness :
  ∃ d n items,
    PDict {[ "season" := PInt 2021; "count" := PInt 0;
             "items" := PList []; "offline" := PBool true ]} = PDict d ∧
    d !! "count" = Some (PInt n) ∧
    d !! "items" = Some items ∧ py_len items = Ok n.
Proof.
  apply (count_is_length_of_items (Drivers 2021) (upstream_down 2026)).
  reflexivity.
Defined.

(** [X9] A response of a data endpoint carries [offline: true] exactly when
    the upstream client failed (the handler then fell back); a response
    built from an upstream answer has no [offline] key. *)
Theorem offline_key_marks_fallback ep w d :
  outcome (handle ep) w = Ok (PDict d) →
  d !! "offline" =
    match outcome (upstream_call ep) w with
    | Ok _ => None
    | Raise _ => Some (PBool true)
    end.
Proof.
  intros Hr.
  destruct (upstream_cases ep w) as [[data Hup]|[Hun|(e & Hup & Hne & _)]].
  - rewrite Hup. rewrite (handle_success _ _ _ Hup) in Hr.
    apply reshape_Ok in Hr as (n & items & Hr & _).
    destruct (envelope_response_fields ep n items) as (d' & Hd' & _ & _ & Ho).
    congruence.
  - destruct (handle_unavailable _ _ Hun) as (d' & items & Hres & _ & _ & Ho).
    destruct Hun as [detail ->]. congruence.
  - rewrite (handle_propagates _ _ _ Hup Hne) in Hr. discriminate.
Qed.

Lemma offline_key_marks_fallback_witness :
  ({[ "season" := PInt 2021; "count" := PInt 0;
      "items" := PList []; "offline" := PBool true ]} : gmap string pyval)
    !! "offline" =
  match outcome (upstream_call (Drivers 2021)) (upstream_down 2026) with
  | Ok _ => None
  | Raise _ => Some (PBool true)
  end.
Proof.
  apply (offline_key_marks_fallback (Drivers 2021) (upstream_down 2026)).
  reflexivity.
Defined.

(** [X10] The only [HTTPException] a data endpoint lets through is the 502
    error of the upstream client, unchanged; the 503 error never reaches the
    client of a data endpoint. *)
Theorem only_502_gets_through ep w sc detail :
  outcome (handle ep) w = Raise (HTTPException sc detail) →
  sc = 502 ∧ outcome (upstream_call ep) w = Raise (HTTPException sc detail).
Proof.
  intros Hr.
  destruct (upstream_cases ep w) as [[data Hup]|[Hun|(e & Hup & Hne & H502)]].
  - rewrite (handle_success _ _ _ Hup) in Hr.
    destruct (reshape_plain _ _ _ _ Hr).
  - destruct (handle_unavailable _ _ Hun) as (d' & items & Hres & _).
    rewrite Hres in Hr. discriminate.
  - rewrite (handle_propagates _ _ _ Hup Hne) in Hr. injection Hr as ->.
    split; [|exact Hup]. eapply H502. reflexivity.
Qed.

Lemma only_502_gets_through_witness :
  (502 : Z) = 502 ∧
  outcome (upstream_call (Races 2021)) (upstream_replies 404 (Parsed PNone) 2026)
  = Raise (HTTPException 502 "Upstream error 404").
Proof.
  apply (only_502_gets_through (Races 2021)
           (upstream_replies 404 (Parsed PNone) 2026)).
  reflexivity.
Defined.

(** [X11] When the upstream answers 200 with a body that is not JSON, what
    the handler does follows the class of the decoding error: a request
    error is taken for an unreachable upstream and the handler answers with
    its [offline] fallback; a plain [ValueError] is not caught and the
    client gets status 500. *)
Theorem undecodable_body ep w resp as_request_exception :
  upstream_answers w ep (Some resp) →
  status_code resp = 200 →
  content resp = Undecodable as_request_exception →
  if as_request_exception
  then ∃ d, outcome (handle ep) w = Ok (PDict d) ∧
            d !! "offline" = Some (PBool true)
  else outcome (handle ep) w = Raise ValueError ∧
       fst (http_reply (outcome (handle ep) w)) = 500.
Proof.
  intros Hans Hst Hbody.
  destruct (upstream_answers_outcome _ _ _ Hans) as (endpoint & ps & Hcall & Hget).
  pose proof (fetch_ergast_outcome endpoint ps w) as Hup.
  rewrite Hget, Hst, Hbody in Hup. simpl in Hup. rewrite <- Hcall in Hup.
  destruct as_request_exception.
  - destruct (handle_unavailable ep w) as (d & items & Hres & _ & _ & Ho);
      [eexists; exact Hup|eauto].
  - assert (outcome (handle ep) w = Raise ValueError) as Hres.
    { apply handle_propagates; [exact Hup|]. intros; discriminate. }
    rewrite Hres. split; reflexivity.
Qed.

Lemma undecodable_body_witness :
  ∃ d, outcome (handle (Seasons None None))
         (upstream_replies 200 (Undecodable true) 2026) = Ok (PDict d) ∧
       d !! "offline" = Some (PBool true).
Proof.
  refine (undecodable_body (Seasons None None)
            (upstream_replies 200 (Undecodable true) 2026)
            (mkResponse 200 (Undecodable true)) true _ _ _);
    [repeat constructor|reflexivity|reflexivity].
Defined.

(** ** Pages of the offline generator *)

Lemma seqZ_max m n : seqZ m (Z.max 0 n) = seqZ m n.
Proof. unfold seqZ. f_equal. f_equal. lia. Qed.

(** A window of the full list is a run of consecutive years. *)
Lemma seasons_window cy (j k : nat) :
  take k (drop j (seasons_list cy)) =
  season_record <$>
    seqZ (1950 + Z.of_nat j) (Z.min (Z.of_nat k) (total_years cy - Z.of_nat j)).
Proof.
  apply list_eq. intros i.
  rewrite lookup_take, lookup_drop, seasons_list_lookup, list_lookup_fmap.
  case_decide as Hi.
  - destruct (Z.ltb_spec (Z.of_nat (j + i)) (total_years cy)).
    + rewrite lookup_seqZ_lt by lia. simpl. do 2 f_equal. lia.
    + rewrite lookup_seqZ_ge by lia. reflexivity.
  - rewrite lookup_seqZ_ge by lia. reflexivity.
Qed.

Lemma offline_seasons_outcome limit offset w :
  outcome (offline_seasons limit offset) w =
  Ok (PDict {[ "count" :=
                 PInt (Z.of_nat (length
                   (py_slice (seasons_list (utcnow_year w)) (default 0 offset)
                      (default 0 offset + default 80 limit))));
               "items" :=
                 PList (py_slice (seasons_list (utcnow_year w)) (default 0 offset)
                          (default 0 offset + default 80 limit));
               "offline" := PBool true ]}).
Proof. reflexivity. Qed.

Lemma offline_seasons_items limit offset w :
  page_items (outcome (offline_seasons limit offset) w) =
  py_slice (seasons_list (utcnow_year w)) (default 0 offset)
    (default 0 offset + default 80 limit).
Proof. rewrite offline_seasons_outcome. reflexivity. Qed.

(** [X12] Whatever the integers [limit] and [offset] (negative ones
    included, or none given), the offline generator returns a run of
    consecutive years that lies within 1950 and the current year: never more
    than [totalYears] items, never a year outside that range, and [count] is
    the number of items. *)
Theorem offline_page_within_range limit offset w :
  ∃ first n,
    0 ≤ n ≤ total_years (utcnow_year w) ∧
    (0 < n → 1950 ≤ first ∧ first + n - 1 ≤ utcnow_year w) ∧
    outcome (offline_seasons limit offset) w =
      Ok (PDict {[ "count" := PInt n;
                   "items" := PList (season_record <$> seqZ first n);
                   "offline" := PBool true ]}).
Proof.
  rewrite offline_seasons_outcome.
  set (cy := utcnow_year w). set (a := default 0 offset).
  set (b := a + default 80 limit).
  pose proof (seasons_list_length cy) as Hlen.
  unfold py_slice. rewrite Hlen.
  set (lo := slice_bound (total_years cy) a).
  set (hi := slice_bound (total_years cy) b).
  assert (0 ≤ total_years cy) as Htot by (unfold total_years; lia).
  assert (0 ≤ lo ≤ total_years cy ∧ 0 ≤ hi ≤ total_years cy) as [Hlo Hhi].
  { unfold lo, hi, slice_bound.
    destruct (Z.ltb_spec a 0), (Z.ltb_spec b 0); lia. }
  rewrite seasons_window, length_fmap, length_seqZ.
  exists (1950 + Z.of_nat (Z.to_nat lo)),
         (Z.max 0 (Z.min (Z.of_nat (Z.to_nat (hi - lo)))
                     (total_years cy - Z.of_nat (Z.to_nat lo)))).
  split; [lia|]. split; [unfold total_years in *; lia|].
  rewrite seqZ_max. do 5 f_equal. lia.
Qed.

(** [X13] Consecutive pages tile the list: for [offset], [a] and [b] that
    are not negative, the page of [a] items at [offset] followed by the page
    of [b] items at [offset + a] is the page of [a + b] items at [offset];
    no season is lost or repeated between two pages. *)
Theorem offline_pages_tile a b offset w :
  0 ≤ offset → 0 ≤ a → 0 ≤ b →
  (page_items (outcome (offline_seasons (Some a) (Some offset)) w) ++
   page_items (outcome (offline_seasons (Some b) (Some (offset + a))) w))%list =
  page_items (outcome (offline_seasons (Some (a + b)) (Some offset)) w).
Proof.
  intros Hoffset Ha Hb. rewrite !offline_seasons_items. simpl default.
  rewrite !py_slice_window by lia.
  replace (Z.to_nat (offset + a)) with (Z.to_nat offset + Z.to_nat a)%nat by lia.
  rewrite <- drop_drop, take_take_drop. f_equal. lia.
Qed.

Lemma offline_pages_tile_witness :
  (page_items (outcome (offline_seasons (Some 2) (Some 70)) (upstream_down 2026)) ++
   page_items (outcome (offline_seasons (Some 3) (Some (70 + 2)))
                 (upstream_down 2026)))%list =
  page_items (outcome (offline_seasons (Some (2 + 3)) (Some 70))
                (upstream_down 2026)).
Proof. apply (offline_pages_tile 2 3 70 (upstream_down 2026)); lia. Defined.

(** [X14] A negative [offset] counts from the end of the list.  With
    [offset < 0] and [offset + limit >= 0] the page starts at index
    [max 0 (totalYears + offset)] and stops before index
    [min (offset + limit) totalYears]; when the stop is not after the start
    (a [limit] that is too small) the page is empty. *)
Theorem offline_page_negative_offset limit offset w :
  offset < 0 → 0 ≤ offset + limit →
  outcome (offline_seasons (Some limit) (Some offset)) w =
    Ok (PDict {[ "count" :=
                   PInt (Z.max 0
                     (Z.min (offset + limit) (total_years (utcnow_year w))
                      - Z.max 0 (total_years (utcnow_year w) + offset)));
                 "items" :=
                   PList (season_record <$>
                     seqZ (1950 + Z.max 0 (total_years (utcnow_year w) + offset))
                       (Z.min (offset + limit) (total_years (utcnow_year w))
                        - Z.max 0 (total_years (utcnow_year w) + offset)));
                 "offline" := PBool true ]}).
Proof.
  intros Hneg Hstop. rewrite offline_seasons_outcome. simpl default.
  set (cy := utcnow_year w).
  pose proof (seasons_list_length cy) as Hlen.
  assert (0 ≤ total_years cy) as Htot by (unfold total_years; lia).
  unfold py_slice, slice_bound. rewrite Hlen.
  destruct (Z.ltb_spec offset 0); [|lia].
  destruct (Z.ltb_spec (offset + limit) 0); [lia|].
  rewrite seasons_window, length_fmap, length_seqZ.
  replace (Z.max 0 (offset + total_years cy))
    with (Z.max 0 (total_years cy + offset)) by lia.
  set (start := Z.max 0 (total_years cy + offset)).
  set (stop := Z.min (offset + limit) (total_years cy)).
  replace (Z.of_nat (Z.to_nat start)) with start by lia.
  rewrite <- (seqZ_max _ (Z.min _ _)), <- (seqZ_max _ (stop - start)).
  replace (Z.max 0 (Z.min (Z.of_nat (Z.to_nat (stop - start)))
                      (total_years cy - start)))
    with (Z.max 0 (stop - start)) by lia.
  replace (Z.of_nat (Z.to_nat (Z.min (Z.of_nat (Z.to_nat (stop - start)))
                                 (total_years cy - start))))
    with (Z.max 0 (stop - start)) by lia.
  reflexivity.
Qed.

Lemma offline_page_negative_offset_witness :
  outcome (offline_seasons (Some 5) (Some (-1))) (upstream_down 2026) =
  Ok (PDict {[ "count" := PInt 0; "items" := PList []; "offline" := PBool true ]}).
Proof. apply (offline_page_negative_offset 5 (-1) (upstream_down 2026)); lia. Defined.

(** ** Favourites listings *)

Lemma stringify_id_string repr (d : gmap string pyval) :
  (∀ v, d !! "_id" = Some v → ∃ s, v = PStr s) →
  stringify_id repr d = d.
Proof.
  intros Hid. unfold stringify_id.
  destruct (d !! "_id") as [v|] eqn:Hv; [|reflexivity].
  destruct (Hid v eq_refl) as [s ->]. simpl. apply insert_id. exact Hv.
Qed.

Lemma stringify_ids_strings repr (docs : list (gmap string pyval)) :
  (∀ d v, d ∈ docs → d !! "_id" = Some v → ∃ s, v = PStr s) →
  stringify_id repr <$> docs = docs.
Proof.
  induction docs as [|d docs IH]; intros Hid; [reflexivity|].
  rewrite fmap_cons. f_equal.
  - apply stringify_id_string. intros v. apply Hid. left.
  - apply IH. intros d' v Hin. apply Hid. right. exact Hin.
Qed.

(** [X15] Stored documents whose [_id], where there is one, is already a
    string come back from both listings exactly as stored, with [count]
    their number: the listing changes nothing but the type of identifiers. *)
Theorem string_ids_returned_as_stored repr w docs :
  (∀ d v, d ∈ docs → d !! "_id" = Some v → ∃ s, v = PStr s) →
  (get_documents w "favoritedriver" = Ok docs →
   outcome (get_favorite_drivers repr) w =
     Ok (PDict {[ "count" := PInt (Z.of_nat (length docs));
                  "items" := PList (PDict <$> docs) ]})) ∧
  (get_documents w "favoriteconstructor" = Ok docs →
   outcome (get_favorite_constructors repr) w =
     Ok (PDict {[ "count" := PInt (Z.of_nat (length docs));
                  "items" := PList (PDict <$> docs) ]})).
Proof.
  intros Hid. apply (stringify_ids_strings repr) in Hid.
  split; intros Hdocs;
    [unfold get_favorite_drivers|unfold get_favorite_constructors];
    rewrite outcome_bind, outcome_call_get_documents, Hdocs; cbn beta iota zeta;
    rewrite Hid; reflexivity.
Qed.

Lemma string_ids_returned_as_stored_witness :
  outcome (get_favorite_constructors (λ _, ""))
    (store_of [ {[ "_id" := PStr "65f1c0ffee0123456789abcd";
                   "constructor_id" := PStr "ferrari" ]};
                {[ "constructor_id" := PStr "ferrari" ]} ]) =
  Ok (PDict {[ "count" := PInt 2;
               "items" := PList
                 [ PDict {[ "_id" := PStr "65f1c0ffee0123456789abcd";
                            "constructor_id" := PStr "ferrari" ]};
                   PDict {[ "constructor_id" := PStr "ferrari" ]} ] ]}).
Proof.
  refine (proj2 (string_ids_returned_as_stored (λ _, "")
            (store_of _) [_; _] _) _); [|reflexivity].
  intros d v Hin Hid.
  apply elem_of_cons in Hin as [->|Hin];
    [|apply list_elem_of_singleton in Hin as ->].
  - apply lookup_insert_Some in Hid as [[_ <-]|[Hne _]]; [eauto|]. by destruct Hne.
  - apply lookup_singleton_Some in Hid as [Hne _]. discriminate Hne.
Defined.

(** [X16] The favourites listings never call the upstream API, and each
    reads its own collection only: the drivers listing depends on nothing
    but what the store returns for [favoritedriver], the constructors
    listing on what it returns for [favoriteconstructor]; a failure of the
    store is passed on unchanged. *)
Theorem listings_read_their_collection repr w :
  requests_sent (get_favorite_drivers repr) w = [] ∧
  requests_sent (get_favorite_constructors repr) w = [] ∧
  (∀ w', get_documents w' "favoritedriver" = get_documents w "favoritedriver" →
         outcome (get_favorite_drivers repr) w' =
         outcome (get_favorite_drivers repr) w) ∧
  (∀ w', get_documents w' "favoriteconstructor" =
         get_documents w "favoriteconstructor" →
         outcome (get_favorite_constructors repr) w' =
         outcome (get_favorite_constructors repr) w) ∧
  (∀ e, get_documents w "favoritedriver" = Raise e →
        outcome (get_favorite_drivers repr) w = Raise e) ∧
  (∀ e, get_documents w "favoriteconstructor" = Raise e →
        outcome (get_favorite_constructors repr) w = Raise e).
Proof.
  unfold get_favorite_drivers, get_favorite_constructors.
  repeat split.
  1-2: rewrite sent_bind; unfold outcome, requests_sent, call_get_documents;
       simpl; destruct (get_documents w _); reflexivity.
  1-2: intros w' Heq; rewrite !outcome_bind, !outcome_call_get_documents, Heq;
       reflexivity.
  1-2: intros e He; rewrite outcome_bind, outcome_call_get_documents, He;
       reflexivity.
Qed.

Lemma listings_read_their_collection_witness :
  outcome (get_favorite_drivers (λ _, "")) (upstream_replies 404 (Parsed PNone) 1999)
  = outcome (get_favorite_drivers (λ _, "")) (upstream_down 2026).
Proof.
  refine (proj1 (proj2 (proj2 (listings_read_their_collection (λ _, "")
            (upstream_down 2026)))) (upstream_replies 404 (Parsed PNone) 1999) _).
  reflexivity.
Defined.

(** ** Diagnostics *)

Lemma test_database_name p :
  test_database p !! "database_name" =
  Some (PStr (if getenv_truthy p "DATABASE_NAME" then "✅ Set" else "❌ Not Set")).
Proof. unfold test_database. cbv zeta. apply lookup_insert_eq. Qed.

Lemma test_database_url p :
  test_database p !! "database_url" =
  Some (PStr (if getenv_truthy p "DATABASE_URL" then "✅ Set" else "❌ Not Set")).
Proof.
  unfold test_database. cbv zeta.
  rewrite lookup_insert_ne by discriminate. apply lookup_insert_eq.
Qed.

Lemma getenv_truthy_spec p key :
  getenv_truthy p key = true ↔ ∃ value, getenv p key = Some value ∧ value ≠ "".
Proof.
  unfold getenv_truthy. destruct (getenv p key) as [[|c value]|]; simpl.
  - split; [discriminate|]. intros (value & [= <-] & Hne). by destruct Hne.
  - split; [|reflexivity]. intros _. eexists. split; [reflexivity|discriminate].
  - split; [discriminate|]. intros (value & Hv & _). discriminate Hv.
Qed.

(** [X17] The diagnostics report of [database_url] and [database_name] is
    only whether the variables [DATABASE_URL] and [DATABASE_NAME] are set to
    a non-empty value: each field is ["✅ Set"] or ["❌ Not Set"], and the
    storage handle (its name, whether it is there at all) has no part in
    them. *)
Theorem diagnostics_report_settings_only p :
  (test_database p !! "database_url" = Some (PStr "✅ Set") ∧
     (∃ value, getenv p "DATABASE_URL" = Some value ∧ value ≠ "") ∨
   test_database p !! "database_url" = Some (PStr "❌ Not Set") ∧
     ¬ (∃ value, getenv p "DATABASE_URL" = Some value ∧ value ≠ "")) ∧
  (test_database p !! "database_name" = Some (PStr "✅ Set") ∧
     (∃ value, getenv p "DATABASE_NAME" = Some value ∧ value ≠ "") ∨
   test_database p !! "database_name" = Some (PStr "❌ Not Set") ∧
     ¬ (∃ value, getenv p "DATABASE_NAME" = Some value ∧ value ≠ "")) ∧
  ∀ handle,
    test_database (mkProcess handle (getenv p)) !! "database_url" =
      test_database p !! "database_url" ∧
    test_database (mkProcess handle (getenv p)) !! "database_name" =
      test_database p !! "database_name".
Proof.
  split; [|split].
  - rewrite test_database_url.
    destruct (getenv_truthy p "DATABASE_URL") eqn:Hset.
    + left. split; [reflexivity|]. apply getenv_truthy_spec, Hset.
    + right. split; [reflexivity|]. rewrite <- getenv_truthy_spec, Hset.
      discriminate.
  - rewrite test_database_name.
    destruct (getenv_truthy p "DATABASE_NAME") eqn:Hset.
    + left. split; [reflexivity|]. apply getenv_truthy_spec, Hset.
    + right. split; [reflexivity|]. rewrite <- getenv_truthy_spec, Hset.
      discriminate.
  - intros handle. rewrite !test_database_url, !test_database_name.
    split; reflexivity.
Qed.

(** [X18] Whatever the state of the storage, the diagnostics response has
    the same six keys, and [backend] is ["✅ Running"]. *)
Theorem diagnostics_shape p :
  dom (test_database p) =
    ({[ "backend"; "database"; "database_url"; "database_name";
        "connection_status"; "collections" ]} : gset string) ∧
  test_database p !! "backend" = Some (PStr "✅ Running").
Proof.
  unfold test_database. cbv zeta.
  destruct (db p) as [handle|];
    [destruct (name handle) as [[v|message]|],
       (list_collection_names handle) as [collections|message']|];
    (split; [rewrite ?dom_insert_L, ?dom_singleton_L; set_solver|]);
    repeat (rewrite lookup_insert_ne by discriminate);
    apply lookup_insert_eq.
Qed.

Ltac read_field :=
  repeat (rewrite lookup_insert_ne by discriminate);
  first [apply lookup_insert_eq | apply lookup_singleton_eq].

Lemma py_slice_first {X} (l : list X) (n : Z) :
  0 ≤ n → py_slice l 0 n = take (Z.to_nat n) l.
Proof. intros Hn. apply (py_slice_window l 0 n); lia. Qed.

(** [X19] The [collections] field of the diagnostics is a list of at most
    ten names: the first ten the storage lists (all of them when there are
    fewer), in its order, when the handle is there and both its name and the
    listing could be read; the empty list in every other case. *)
Theorem diagnostics_collections p :
  ∃ names,
    test_database p !! "collections" = Some (PList (PStr <$> names)) ∧
    (length names ≤ 10)%nat ∧
    (∀ handle listed,
       db p = Some handle → (∀ message, name handle ≠ Some (Throws message)) →
       list_collection_names handle = Gives listed →
       names = take 10 listed) ∧
    (db p = None → names = []) ∧
    (∀ handle message,
       db p = Some handle →
       name handle = Some (Throws message) ∨
       list_collection_names handle = Throws message →
       names = []).
Proof.
  unfold test_database. cbv zeta.
  destruct (db p) as [handle|];
    [destruct (name handle) as [[v|message]|] eqn:Hname,
       (list_collection_names handle) as [collections|message'] eqn:Hlist|].
  1,5: exists (take 10 collections); (split; [rewrite py_slice_first by lia; read_field|]);
       (split; [rewrite length_take; lia|]); (split; [|split]);
       [intros handle' listed [= <-] _ Hl; congruence
       |discriminate
       |intros handle' message' [= <-] [?|?]; congruence].
  all: exists []; (split; [read_field|]); (split; [simpl; lia|]); (split; [|split]);
       [intros handle' listed Hdb Hn Hl|reflexivity|reflexivity].
  all: try discriminate Hdb; injection Hdb as <-; try congruence.
  all: edestruct Hn; eassumption.
Qed.




(** [X21] The [database] field tells the state of the storage: not
    initialised when there is no handle, working when the handle's name and
    its collections could be read; [connection_status] is ["Connected"]
    exactly when there is a handle whose name could be read. *)
Theorem diagnostics_status p :
  (db p = None →
   test_database p !! "database" =
     Some (PStr "⚠️  Available but not initialized") ∧
   test_database p !! "connection_status" = Some (PStr "Not Connected")) ∧
  (∀ handle listed,
     db p = Some handle → (∀ m, name handle ≠ Some (Throws m)) →
     list_collection_names handle = Gives listed →
     test_database p !! "database" = Some (PStr "✅ Connected & Working") ∧
     test_database p !! "connection_status" = Some (PStr "Connected")) ∧
  (test_database p !! "connection_status" = Some (PStr "Connected") ↔
   ∃ handle, db p = Some handle ∧ ∀ m, name handle ≠ Some (Throws m)).
Proof.
  unfold test_database. cbv zeta.
  destruct (db p) as [handle|];
    [destruct (name handle) as [[v|message]|] eqn:Hname,
       (list_collection_names handle) as [collections|message'] eqn:Hlist|].
  all: split; [intros Hdb; try discriminate Hdb; split; read_field|].
  all: split;
    [intros handle' listed Hdb Hn Hl; try discriminate Hdb;
     injection Hdb as <-; try congruence;
     try (edestruct Hn; eassumption); split; read_field|].
  all: split;
    [intros Hconn|intros (handle' & Hdb & Hn); try discriminate Hdb;
                  injection Hdb as <-;
                  try (edestruct Hn; eassumption); read_field].
  all: try (exists handle; split; [reflexivity|]; rewrite Hname;
            intros m; discriminate).
  all: exfalso; revert Hconn;
    repeat (rewrite lookup_insert_ne by discriminate);
    rewrite ?lookup_insert_eq, ?lookup_singleton_eq; discriminate.
Qed.

Lemma diagnostics_status_witness :
  test_database (mkProcess None (λ _, Some "mongodb://db")) !! "database" =
    Some (PStr "⚠️  Available but not initialized") ∧
  test_database (mkProcess None (λ _, Some "mongodb://db")) !! "connection_status"
    = Some (PStr "Not Connected").
Proof.
  apply (proj1 (diagnostics_status (mkProcess None (λ _, Some "mongodb://db")))).
  reflexivity.
Defined.

Lemma diagnostics_collections_witness :
  ∃ names,
    test_database
      (mkProcess (Some (mkDatabase None (Gives ["favoritedriver"])))
         (λ _, None)) !! "collections" = Some (PList (PStr <$> names)) ∧
    names = take 10 ["favoritedriver"].
Proof.
  destruct (diagnostics_collections
              (mkProcess (Some (mkDatabase None (Gives ["favoritedriver"])))
                 (λ _, None))) as (names & Hc & _ & Hn & _).
  exists names. split; [exact Hc|].
  apply (Hn _ _ eq_refl); [discriminate|reflexivity].
Defined.

(** ** Failures of the data endpoints *)

(** [X22] When the value the upstream client returned, its [MRData] or the
    table inside [MRData] is present but is not a JSON object (a list, a
    string, a number, [null]), every data endpoint fails with
    [AttributeError] and the client gets status 500. *)
Theorem wrapper_not_object_fails ep w data :
  outcome (upstream_call ep) w = Ok data →
  wrapper_not_object data (table_key ep) = true →
  outcome (handle ep) w = Raise AttributeError ∧
  fst (http_reply (outcome (handle ep) w)) = 500.
Proof.
  intros Hup Hbad.
  assert (outcome (handle ep) w = Raise AttributeError) as Hres.
  { rewrite (handle_success _ _ _ Hup). unfold reshape.
    unfold wrapper_not_object in Hbad.
    destruct data as [| | | | | |d|]; try reflexivity. simpl.
    destruct (d !! "MRData") as [[| | | | | |mrdata|]|]; simpl;
      try reflexivity; try discriminate Hbad.
    destruct (mrdata !! table_key ep) as [[]|]; simpl;
      try reflexivity; discriminate Hbad. }
  rewrite Hres. split; reflexivity.
Qed.

Lemma wrapper_not_object_fails_witness :
  outcome (handle (Races 2021))
    (upstream_replies 200 (Parsed (PDict {[ "MRData" := PNone ]})) 2026) =
  Raise AttributeError.
Proof.
  refine (proj1 (wrapper_not_object_fails (Races 2021) _
                   (PDict {[ "MRData" := PNone ]}) _ _)); reflexivity.
Defined.

(** [X23] For [race_results] a race list that is false in a condition
    ([null], [false], [0], an empty string, list or object) counts as no
    race: the response is [{season, round, count: 0, items: []}]. *)
Theorem falsy_race_list season round w d mrdata table found :
  outcome (upstream_call (Results season round)) w = Ok (PDict d) →
  d !! "MRData" = Some (PDict mrdata) →
  mrdata !! "RaceTable" = Some (PDict table) →
  table !! "Races" = Some found →
  py_truthy found = false →
  outcome (race_results season round) w =
    Ok (PDict {[ "season" := PInt season; "round" := PInt round;
                 "count" := PInt 0; "items" := PList [] ]}).
Proof.
  intros Hup Hd Hm Ht Hfalse.
  change (race_results season round) with (handle (Results season round)).
  rewrite (handle_success _ _ _ Hup). unfold reshape, py_get.
  rewrite Hd. simpl. rewrite Hm. simpl. rewrite Ht. simpl.
  rewrite Hfalse. reflexivity.
Qed.

Lemma falsy_race_list_witness :
  outcome (race_results 2021 1)
    (upstream_replies 200
       (Parsed (PDict {[ "MRData" := PDict {[ "RaceTable" := PDict {[
          "Races" := PNone ]} ]} ]})) 2026) =
  Ok (PDict {[ "season" := PInt 2021; "round" := PInt 1;
               "count" := PInt 0; "items" := PList [] ]}).
Proof.
  refine (falsy_race_list 2021 1 _ _ _ _ _ _ _ _ _ _); reflexivity.
Defined.







(** ** Worked examples: characters and replies *)

Example characters_of_accented :
  characters "Pérez" = 5%nat ∧ String.length "Pérez" = 6%nat ∧
  first_characters 2 "Pérez" = "Pé" ∧
  py_first (PStr "émile") = Ok (PStr "é").
Proof. repeat split; reflexivity. Qed.

Example drivers_as_string :
  outcome (list_drivers 2021)
    (upstream_replies 200
       (Parsed (PDict {[ "MRData" := PDict {[ "DriverTable" := PDict {[
          "Drivers" := PStr "Pérez" ]} ]} ]})) 2026) =
  Ok (PDict {[ "season" := PInt 2021; "count" := PInt 5;
               "items" := PStr "Pérez" ]}).
Proof. vm_compute. reflexivity. Qed.

Example body_too_deep :
  outcome (list_drivers 2021)
    (upstream_replies 200 (Unreadable "RecursionError") 2026) =
  Raise (PythonError "RecursionError").
Proof. vm_compute. reflexivity. Qed.

Example reply_with_nan :
  fst (http_reply (Ok (PDict {[ "count" := PInt 1;
                               "items" := PList [PFloat FNan] ]}))) = 500 ∧
  fst (http_reply (Ok (PDict {[ "count" := PInt 1;
                               "items" := PList [PInt 7] ]}))) = 200.
Proof. split; vm_compute; reflexivity. Qed.
